(** * gofn provision: image resolution, container lifecycle and execution

    A shallow embedding of [provision/docker.go].  Engine calls go through a
    [Client] record of response functions; every call a function issues is
    appended to a log kept in a state monad, so that statements such as
    "no pull is attempted" or "before any engine call" are statements about
    that log. *)

From Stdlib Require Import String Ascii List ZArith Bool Arith Lia.
From ExtLib Require Import Structures.Monad Structures.MonadState.
From ExtLib Require Import Data.Monads.StateMonad.
Import ListNotations.
Import MonadNotation.

Set Warnings "-notation-for-abbreviation".

Local Open Scope string_scope.
Local Open Scope list_scope.
Local Open Scope monad_scope.

(* ===================================================================== *)
(** ** Go standard library: package [strings]                            *)
(* ===================================================================== *)

(** Go strings are byte sequences; [string] (a list of [ascii], 8 bits each)
    is the same data. *)

Module strings.

(** [strings.HasPrefix(s, prefix)]. *)
Definition HasPrefix (s prefix : string) : bool := String.prefix prefix s.

(** [strings.Contains(s, substr)]: [substr] occurs at some offset of [s]. *)
Fixpoint Contains (s substr : string) : bool :=
  String.prefix substr s ||
  match s with
  | EmptyString => false
  | String _ t => Contains t substr
  end.

(** [strings.IndexByte(s, c)]: offset of the first [c], or -1. *)
Fixpoint IndexByte (s : string) (c : ascii) : Z :=
  match s with
  | EmptyString => (-1)%Z
  | String a t =>
      if Ascii.eqb a c then 0%Z
      else let i := IndexByte t c in
           if (i <? 0)%Z then (-1)%Z else (i + 1)%Z
  end.

(** [strings.IndexRune(s, r)] for a rune below [utf8.RuneSelf], which is
    the only use in the source (['@']): the library dispatches to
    [IndexByte]. *)
Definition IndexRune (s : string) (r : ascii) : Z := IndexByte s r.

End strings.

(* ===================================================================== *)
(** ** Go standard library: package [path]                               *)
(* ===================================================================== *)

Module path.

(** The output buffer of [Clean] ([lazybuf]): the bytes written so far,
    most recent first, so that [out.w] is its length and [out.w--] drops
    the head. *)
Definition lazybuf := list ascii.

Definition isByte (c : ascii) (o : option ascii) : bool :=
  match o with
  | Some a => Ascii.eqb a c
  | None => false
  end.

(** [path[k:]]. *)
Fixpoint skip (k : nat) (p : string) : string :=
  match k, p with
  | S k', String _ t => skip k' t
  | _, _ => p
  end.

(** The [..] case when it can backtrack:
    [out.w--; for out.w > dotdot && out.index(out.w) != '/' { out.w-- }]. *)
Fixpoint backtrack (out : lazybuf) (dotdot : nat) : lazybuf :=
  match out with
  | [] => []
  | c :: out' =>
      if (dotdot <? List.length out')%nat && negb (Ascii.eqb c "/")
      then backtrack out' dotdot
      else out'
  end.

(** [for ; r < n && path[r] != '/'; r++ { out.append(path[r]) }]:
    returns what is left of the path and the buffer. *)
Fixpoint copyElem (p : string) (out : lazybuf) : string * lazybuf :=
  match p with
  | EmptyString => (p, out)
  | String c t => if Ascii.eqb c "/" then (p, out) else copyElem t (c :: out)
  end.

(** The main loop [for r < n { switch ... }] over [p = path[r:]].  Every
    iteration consumes at least one byte, so [fuel = len(path)] iterations
    are enough ([loop_fuel] below). *)
Fixpoint loop (fuel : nat) (rooted : bool) (p : string) (out : lazybuf)
         (dotdot : nat) : lazybuf :=
  match fuel with
  | O => out
  | S fuel' =>
      let n := String.length p in
      if (n =? 0)%nat then out
      else if isByte "/" (String.get 0 p) then
        (* empty path element *)
        loop fuel' rooted (skip 1 p) out dotdot
      else if isByte "." (String.get 0 p)
              && ((n =? 1)%nat || isByte "/" (String.get 1 p)) then
        (* . element *)
        loop fuel' rooted (skip 1 p) out dotdot
      else if isByte "." (String.get 0 p) && isByte "." (String.get 1 p)
              && ((n =? 2)%nat || isByte "/" (String.get 2 p)) then
        (* .. element: remove to last / *)
        if (dotdot <? List.length out)%nat then
          loop fuel' rooted (skip 2 p) (backtrack out dotdot) dotdot
        else if negb rooted then
          let out1 := if (0 <? List.length out)%nat then "/"%char :: out else out in
          let out2 := "."%char :: "."%char :: out1 in
          loop fuel' rooted (skip 2 p) out2 (List.length out2)
        else
          loop fuel' rooted (skip 2 p) out dotdot
      else
        (* real path element: add slash if needed, copy element *)
        let w := List.length out in
        let out1 :=
          if (rooted && negb (w =? 1)%nat) || (negb rooted && negb (w =? 0)%nat)
          then "/"%char :: out else out in
        let '(p', out2) := copyElem p out1 in
        loop fuel' rooted p' out2 dotdot
  end.

(** A path element that [Clean] keeps: not empty, not [.], not [..], and
    without a slash. *)
Definition plainElem (c : string) : Prop :=
  c <> "" /\ c <> "." /\ c <> ".."
  /\ ~ In "/"%char (list_ascii_of_string c).

(** What may follow a path element: the end of the path or a slash. *)
Definition boundary (t : string) : Prop :=
  t = "" \/ exists t', t = String "/" t'.

(** [path.Clean]. *)
Definition Clean (path : string) : string :=
  if String.eqb path "" then "."
  else
    let rooted := isByte "/" (String.get 0 path) in
    let n := String.length path in
    let out :=
      if rooted then loop n rooted (skip 1 path) ["/"%char] 1
      else loop n rooted path [] 0 in
    if (List.length out =? 0)%nat then "."
    else string_of_list_ascii (List.rev out).

(** [path.Join]: the elements from the first non-empty one on, joined by
    slashes, then cleaned; the empty string when all are empty. *)
Fixpoint Join (elem : list string) : string :=
  match elem with
  | [] => ""
  | e :: rest =>
      if String.eqb e "" then Join rest
      else Clean (String.concat "/" elem)
  end.

End path.

(* ===================================================================== *)
(** ** Errors                                                            *)
(* ===================================================================== *)

(** A non-nil Go [error]: one of the package's sentinels, compared by
    identity, or an error produced by the engine client, of which only the
    message is observed. *)
Inductive error_value : Type :=
| ErrImageNotFound
| ErrContainerNotFound
| ErrContainerExecutionFailed
| EngineError (msg : string).

(** The [error] interface: [None] is [nil]. *)
Definition error : Type := option error_value.

(** [err.Error()]. *)
Definition Error (e : error_value) : string :=
  match e with
  | ErrImageNotFound => "provision: image not found"
  | ErrContainerNotFound => "provision: container not found"
  | ErrContainerExecutionFailed => "provision: container exited with failure"
  | EngineError msg => msg
  end.

(* ===================================================================== *)
(** ** The engine client (github.com/fsouza/go-dockerclient)             *)
(* ===================================================================== *)

Module docker.

Module AuthConfiguration.
Record t : Type := {
  Username : string;
  Password : string;
  Email : string;
  ServerAddress : string;
  IdentityToken : string;
  RegistryToken : string
}.
End AuthConfiguration.
Notation AuthConfiguration := AuthConfiguration.t.

Module AuthStatus.
Record t : Type := {
  Status : string;
  IdentityToken : string
}.
End AuthStatus.
Notation AuthStatus := AuthStatus.t.

(** [OutputStream] is a sink, not data: what the engine writes to it is
    part of the call's response. *)
Module BuildImageOptions.
Record t : Type := {
  Name : string;
  Dockerfile : string;
  SuppressOutput : bool;
  ContextDir : string;
  Remote : string;
  Auth : AuthConfiguration
}.
End BuildImageOptions.
Notation BuildImageOptions := BuildImageOptions.t.

Module PullImageOptions.
Record t : Type := {
  Repository : string;
  Tag : string
}.
End PullImageOptions.
Notation PullImageOptions := PullImageOptions.t.

Module ListContainersOptions.
Record t : Type := { All : bool }.
End ListContainersOptions.
Notation ListContainersOptions := ListContainersOptions.t.

(** The fields of a listed container that the package reads, and two it
    only carries along. *)
Module APIContainers.
Record t : Type := {
  ID : string;
  Image : string;
  Command : string;
  Names : list string
}.
(** The zero value, which a named result holds until assigned. *)
Definition zero : t := {| ID := ""; Image := ""; Command := ""; Names := [] |}.
End APIContainers.
Notation APIContainers := APIContainers.t.

(** [InputStream] is given by the bytes the reader yields ([None]: no
    reader); for the two writers only their presence matters here. *)
Module AttachToContainerOptions.
Record t : Type := {
  Container : string;
  RawTerminal : bool;
  Stream : bool;
  Stdin : bool;
  Stderr : bool;
  Stdout : bool;
  Logs : bool;
  InputStream : option string;
  ErrorStream : bool;
  OutputStream : bool
}.
End AttachToContainerOptions.
Notation AttachToContainerOptions := AttachToContainerOptions.t.

Module LogsOptions.
Record t : Type := {
  Container : string;
  Stdout : bool;
  Stderr : bool
}.
End LogsOptions.
Notation LogsOptions := LogsOptions.t.

(** The handle returned by a non-blocking attach; the package drops it. *)
Inductive CloseWaiter : Type := closeWaiter.

(** The engine as seen through the client: one response function per
    method the package calls.  [BuildImage] answers with the bytes written
    to [OutputStream] and the error; [Logs] with the bytes written to the
    output and error sinks and the error; [WaitContainer] with the exit
    code and the error. *)
Record Client : Type := {
  AuthCheck : AuthConfiguration -> AuthStatus * error;
  BuildImage : BuildImageOptions -> string * error;
  PullImage : PullImageOptions -> AuthConfiguration -> error;
  ListContainers : ListContainersOptions -> list APIContainers * error;
  StartContainer : string -> error;
  AttachToContainerNonBlocking : AttachToContainerOptions -> CloseWaiter * error;
  WaitContainer : string -> Z * error;
  Logs : LogsOptions -> string * string * error
}.

(** One engine call with its arguments. *)
Inductive Call : Type :=
| CallAuthCheck (a : AuthConfiguration)
| CallBuildImage (o : BuildImageOptions)
| CallPullImage (o : PullImageOptions) (a : AuthConfiguration)
| CallListContainers (o : ListContainersOptions)
| CallStartContainer (id : string)
| CallAttachToContainerNonBlocking (o : AttachToContainerOptions)
| CallWaitContainer (id : string)
| CallLogs (o : LogsOptions).

(** [docker.ParseRepositoryTag] as the library implements it: the part
    before the first ['@'] is cut at its last [':'], unless what follows
    that colon contains a ['/'] (a registry port).  The package's functions
    below take the parser as a parameter; this one instantiates it. *)
Fixpoint beforeByte (c : ascii) (s : string) : string :=
  match s with
  | EmptyString => EmptyString
  | String a t => if Ascii.eqb a c then EmptyString else String a (beforeByte c t)
  end.

Fixpoint cutLast (c : ascii) (s : string) : option (string * string) :=
  match s with
  | EmptyString => None
  | String a t =>
      match cutLast c t with
      | Some (pre, post) => Some (String a pre, post)
      | None => if Ascii.eqb a c then Some (EmptyString, t) else None
      end
  end.

Definition ParseRepositoryTag (repoTag : string) : string * string :=
  let repoTag := beforeByte "@" repoTag in
  match cutLast ":" repoTag with
  | None => (repoTag, "")
  | Some (repo, tag) =>
      if negb (strings.Contains tag "/") then (repo, tag) else (repoTag, "")
  end.

End docker.

(* ===================================================================== *)
(** ** Package [provision]: options                                      *)
(* ===================================================================== *)

Section Options.

(** The interface type [iaas.Iaas], which this package stores and never
    inspects. *)
Context {Iaas : Type}.

Record BuildOptions : Type := {
  ContextDir : string;
  Dockerfile : string;
  DoNotUsePrefixImageName : bool;
  ImageName : string;
  RemoteURI : string;
  StdIN : string;
  iaas : Iaas;
  Auth : docker.AuthConfiguration;
  ForcePull : bool
}.

(** [opts.Dockerfile = v] *)
Definition set_Dockerfile (v : string) (o : BuildOptions) : BuildOptions :=
  {| ContextDir := ContextDir o; Dockerfile := v;
     DoNotUsePrefixImageName := DoNotUsePrefixImageName o;
     ImageName := ImageName o; RemoteURI := RemoteURI o; StdIN := StdIN o;
     iaas := iaas o; Auth := Auth o; ForcePull := ForcePull o |}.

(** [opts.ContextDir = v] *)
Definition set_ContextDir (v : string) (o : BuildOptions) : BuildOptions :=
  {| ContextDir := v; Dockerfile := Dockerfile o;
     DoNotUsePrefixImageName := DoNotUsePrefixImageName o;
     ImageName := ImageName o; RemoteURI := RemoteURI o; StdIN := StdIN o;
     iaas := iaas o; Auth := Auth o; ForcePull := ForcePull o |}.

(** [opts.Auth = v] *)
Definition set_Auth (v : docker.AuthConfiguration) (o : BuildOptions) : BuildOptions :=
  {| ContextDir := ContextDir o; Dockerfile := Dockerfile o;
     DoNotUsePrefixImageName := DoNotUsePrefixImageName o;
     ImageName := ImageName o; RemoteURI := RemoteURI o; StdIN := StdIN o;
     iaas := iaas o; Auth := v; ForcePull := ForcePull o |}.

(** [opts.Auth.ServerAddress = v] *)
Definition set_ServerAddress (v : string) (a : docker.AuthConfiguration)
  : docker.AuthConfiguration :=
  {| docker.AuthConfiguration.Username := docker.AuthConfiguration.Username a;
     docker.AuthConfiguration.Password := docker.AuthConfiguration.Password a;
     docker.AuthConfiguration.Email := docker.AuthConfiguration.Email a;
     docker.AuthConfiguration.ServerAddress := v;
     docker.AuthConfiguration.IdentityToken := docker.AuthConfiguration.IdentityToken a;
     docker.AuthConfiguration.RegistryToken := docker.AuthConfiguration.RegistryToken a |}.

(** [opts.Auth.IdentityToken = v] *)
Definition set_IdentityToken (v : string) (a : docker.AuthConfiguration)
  : docker.AuthConfiguration :=
  {| docker.AuthConfiguration.Username := docker.AuthConfiguration.Username a;
     docker.AuthConfiguration.Password := docker.AuthConfiguration.Password a;
     docker.AuthConfiguration.Email := docker.AuthConfiguration.Email a;
     docker.AuthConfiguration.ServerAddress := docker.AuthConfiguration.ServerAddress a;
     docker.AuthConfiguration.IdentityToken := v;
     docker.AuthConfiguration.RegistryToken := docker.AuthConfiguration.RegistryToken a |}.

(** [GetImageName] sets prefix gofn when needed. *)
Definition GetImageName (opts : BuildOptions) : string :=
  if DoNotUsePrefixImageName opts then ImageName opts
  else path.Join ["gofn"; ImageName opts].

End Options.

(* ===================================================================== *)
(** ** Package [provision]: image resolution                             *)
(* ===================================================================== *)

Section ImageResolver.

Context {Iaas : Type}.

(** [docker.ParseRepositoryTag], a function of the client library: it
    splits an image name into repository and tag, the tag being empty when
    the name has none. *)
Variable ParseRepositoryTag : string -> string * string.

(** An engine call as logged: the call and the options object ([*opts]) as
    it stands when the call is issued. *)
Record Event : Type := {
  ev_call : docker.Call;
  ev_opts : @BuildOptions Iaas
}.

(** What the image functions act on: the [BuildOptions] their [opts]
    pointer refers to, shared with the caller, and the log of engine
    calls. *)
Record BuildWorld : Type := {
  w_opts : @BuildOptions Iaas;
  w_events : list Event
}.

(** Read [*opts]. *)
Definition load : state BuildWorld BuildOptions := gets w_opts.

(** Assign through [opts]. *)
Definition store (f : BuildOptions -> BuildOptions) : state BuildWorld unit :=
  modify (fun w => {| w_opts := f (w_opts w); w_events := w_events w |});;
  ret tt.

(** Issue an engine call. *)
Definition engine (c : docker.Call) : state BuildWorld unit :=
  modify (fun w =>
    {| w_opts := w_opts w;
       w_events := w_events w ++ [{| ev_call := c; ev_opts := w_opts w |}] |});;
  ret tt.

(** The guard of [auth]:
    [(Email != "" || Username != "") && Password != ""]. *)
Definition hasCredentials (a : docker.AuthConfiguration) : bool :=
  (negb (docker.AuthConfiguration.Email a =? "")
   || negb (docker.AuthConfiguration.Username a =? ""))
  && negb (docker.AuthConfiguration.Password a =? "").

(** [auth]: the client receives [&opts.Auth] and only reads it. *)
Definition auth (client : docker.Client) : state BuildWorld error :=
  opts <- load;;
  if hasCredentials (Auth opts)
  then
    (if docker.AuthConfiguration.ServerAddress (Auth opts) =? ""
     then store (fun o => set_Auth (set_ServerAddress "https://index.docker.io/v1/" (Auth o)) o)
     else ret tt);;
    opts <- load;;
    engine (docker.CallAuthCheck (Auth opts));;
    let '(status, err) := docker.AuthCheck client (Auth opts) in
    match err with
    | Some _ => ret err
    | None =>
        store (fun o => set_Auth (set_IdentityToken (docker.AuthStatus.IdentityToken status) (Auth o)) o);;
        ret None
    end
  else ret None.

(** [parseDockerImage] *)
Definition parseDockerImage (image : string) : string * string :=
  let '(repo, tag) := ParseRepositoryTag image in
  if negb (tag =? "") then (repo, tag)
  else if (-1 <? strings.IndexRune image "@")%Z then
    (* Has digest (@sha256:...) *)
    (image, tag)
  else (repo, "latest").

(** The options of the pull call for an image name. *)
Definition pullImageOptions (image : string) : docker.PullImageOptions :=
  let '(repo, tag) := parseDockerImage image in
  {| docker.PullImageOptions.Repository := repo;
     docker.PullImageOptions.Tag := tag |}.

(** [FnPull] pull image from registry *)
Definition FnPull (client : docker.Client) : state BuildWorld error :=
  opts <- load;;
  let o := pullImageOptions (GetImageName opts) in
  engine (docker.CallPullImage o (Auth opts));;
  ret (docker.PullImage client o (Auth opts)).

(** The options of the build call, read from [*opts]. *)
Definition buildImageOptions (opts : @BuildOptions Iaas) : docker.BuildImageOptions :=
  {| docker.BuildImageOptions.Name := GetImageName opts;
     docker.BuildImageOptions.Dockerfile := Dockerfile opts;
     docker.BuildImageOptions.SuppressOutput := true;
     docker.BuildImageOptions.ContextDir := ContextDir opts;
     docker.BuildImageOptions.Remote := RemoteURI opts;
     docker.BuildImageOptions.Auth := Auth opts |}.

(** [FnImageBuild] builds an image.  The result is [(Name, Stdout, err)];
    [Stdout] is [None] for the nil buffer pointer. *)
Definition FnImageBuild (client : docker.Client)
  : state BuildWorld (string * option string * error) :=
  opts <- load;;
  (if Dockerfile opts =? "" then store (set_Dockerfile "Dockerfile") else ret tt);;
  opts <- load;;
  (if (ContextDir opts =? "") && (RemoteURI opts =? "")
   then store (set_ContextDir "./") else ret tt);;
  err <- auth client;;
  match err with
  | Some _ => ret ("", None, err)
  | None =>
      opts <- load;;
      let Name := GetImageName opts in
      if ForcePull opts then
        err <- FnPull client;;
        ret (Name, None, err)
      else
        let o := buildImageOptions opts in
        engine (docker.CallBuildImage o);;
        let '(stdout, err) := docker.BuildImage client o in
        match err with
        | Some e =>
            if negb (strings.Contains (Error e) "Cannot locate specified Dockerfile:")
            then ret (Name, None, err)
            else
              err <- FnPull client;;
              match err with
              | Some _ => ret (Name, None, err)
              | None => ret (Name, Some stdout, None)
              end
        | None => ret (Name, Some stdout, None)
        end
  end.

(** The options after the two defaulting statements that open
    [FnImageBuild]. *)
Definition defaults (o : @BuildOptions Iaas) : BuildOptions :=
  let o1 := if Dockerfile o =? "" then set_Dockerfile "Dockerfile" o else o in
  if (ContextDir o1 =? "") && (RemoteURI o1 =? "") then set_ContextDir "./" o1
  else o1.

(** The options after the server-address statement of [auth]. *)
Definition addressed (o : @BuildOptions Iaas) : BuildOptions :=
  if docker.AuthConfiguration.ServerAddress (Auth o) =? ""
  then set_Auth (set_ServerAddress "https://index.docker.io/v1/" (Auth o)) o
  else o.

(** [FnImageBuild] from [Name = opts.GetImageName()] on, in closed form:
    result and world, from the world [w] that a successful [auth] leaves.
    [FnImageBuild_run] proves that this is what [FnImageBuild] does. *)
Definition resolve (client : docker.Client) (w : BuildWorld)
  : (string * option string * error) * BuildWorld :=
  let o := w_opts w in
  let Name := GetImageName o in
  if ForcePull o then
    let '(err, w2) := runState (FnPull client) w in ((Name, None, err), w2)
  else
    let b := buildImageOptions o in
    let w2 := {| w_opts := o;
                 w_events := w_events w ++
                             [{| ev_call := docker.CallBuildImage b; ev_opts := o |}] |} in
    match docker.BuildImage client b with
    | (stdout, None) => ((Name, Some stdout, None), w2)
    | (stdout, Some e) =>
        if strings.Contains (Error e) "Cannot locate specified Dockerfile:"
        then
          let '(err, w3) := runState (FnPull client) w2 in
          (match err with
           | Some _ => (Name, None, err)
           | None => (Name, Some stdout, None)
           end, w3)
        else ((Name, None, Some e), w2)
    end.

(** Run an image function on the caller's options with an empty log. *)
Definition run_build {A : Type} (m : state BuildWorld A) (opts : BuildOptions)
  : A * BuildWorld :=
  runState m {| w_opts := opts; w_events := [] |}.

(** The pulls among logged calls, in order. *)
Definition pulls (evs : list Event)
  : list (docker.PullImageOptions * docker.AuthConfiguration) :=
  flat_map (fun ev => match ev_call ev with
                      | docker.CallPullImage o a => [(o, a)]
                      | _ => []
                      end) evs.

End ImageResolver.

(* ===================================================================== *)
(** ** Package [provision]: containers and execution                     *)
(* ===================================================================== *)

(** The log of engine calls issued so far. *)
Definition Trace : Type := list docker.Call.

(** Issue an engine call. *)
Definition call (c : docker.Call) : state Trace unit :=
  modify (fun t => t ++ [c]);; ret tt.

(** The loop of [FnFindContainer]: first container whose image is
    [imageName]. *)
Fixpoint findByImage (containers : list docker.APIContainers) (imageName : string)
  : docker.APIContainers * error :=
  match containers with
  | [] => (docker.APIContainers.zero, Some ErrContainerNotFound)
  | v :: rest =>
      if docker.APIContainers.Image v =? imageName then (v, None)
      else findByImage rest imageName
  end.

(** [docker.ListContainersOptions{All: true}] *)
Definition listAll : docker.ListContainersOptions :=
  {| docker.ListContainersOptions.All := true |}.

(** [FnFindContainer] return container by image name *)
Definition FnFindContainer (client : docker.Client) (imageName : string)
  : state Trace (docker.APIContainers * error) :=
  let o := listAll in
  call (docker.CallListContainers o);;
  let '(containers, err) := docker.ListContainers client o in
  match err with
  | Some _ => ret (docker.APIContainers.zero, err)
  | None =>
      let imageName :=
        if negb (strings.HasPrefix imageName "gofn") then ("gofn/" ++ imageName)%string
        else imageName in
      ret (findByImage containers imageName)
  end.

(** [FnListContainers] lists all the containers created by the gofn. *)
Definition FnListContainers (client : docker.Client)
  : state Trace (list docker.APIContainers * error) :=
  let o := listAll in
  call (docker.CallListContainers o);;
  let '(hostContainers, err) := docker.ListContainers client o in
  match err with
  | Some _ => ret ([], err)
  | None =>
      ret (fold_left
             (fun containers container =>
                if strings.HasPrefix (docker.APIContainers.Image container) "gofn/"
                then containers ++ [container] else containers)
             hostContainers [],
           None)
  end.

(** The options [FnAttach] builds. *)
Definition attachOptions (containerID : string) (stdin : option string)
    (stdout stderr : bool) : docker.AttachToContainerOptions :=
  {| docker.AttachToContainerOptions.Container := containerID;
     docker.AttachToContainerOptions.RawTerminal := true;
     docker.AttachToContainerOptions.Stream := true;
     docker.AttachToContainerOptions.Stdin := true;
     docker.AttachToContainerOptions.Stderr := true;
     docker.AttachToContainerOptions.Stdout := true;
     docker.AttachToContainerOptions.Logs := true;
     docker.AttachToContainerOptions.InputStream := stdin;
     docker.AttachToContainerOptions.ErrorStream := stderr;
     docker.AttachToContainerOptions.OutputStream := stdout |}.

(** [FnAttach] attach into a running container *)
Definition FnAttach (client : docker.Client) (containerID : string)
    (stdin : option string) (stdout stderr : bool)
  : state Trace (docker.CloseWaiter * error) :=
  let o := attachOptions containerID stdin stdout stderr in
  call (docker.CallAttachToContainerNonBlocking o);;
  ret (docker.AttachToContainerNonBlocking client o).

(** [FnStart] start the container *)
Definition FnStart (client : docker.Client) (containerID : string)
  : state Trace error :=
  call (docker.CallStartContainer containerID);;
  ret (docker.StartContainer client containerID).

(** The options [FnLogs] builds. *)
Definition logsOptions (containerID : string) : docker.LogsOptions :=
  {| docker.LogsOptions.Container := containerID;
     docker.LogsOptions.Stdout := true;
     docker.LogsOptions.Stderr := true |}.

(** [FnLogs] logs all container activity.  [stdout] and [stderr] are the
    contents of the two sinks; the result carries their contents after the
    call. *)
Definition FnLogs (client : docker.Client) (containerID : string)
    (stdout stderr : string) : state Trace (string * string * error) :=
  let o := logsOptions containerID in
  call (docker.CallLogs o);;
  let '(out, errout, err) := docker.Logs client o in
  ret ((stdout ++ out)%string, (stderr ++ errout)%string, err).

(** An unbuffered channel with one sending goroutine, seen from the
    receiver: the values the goroutine sends, in program order.  Each send
    completes only when a receive takes it. *)
Definition chan (A : Type) : Type := list A.

(** [<-c]: the next value and the channel after it, or [None] when the
    goroutine has nothing left to send and the receive blocks for ever. *)
Definition recv {A : Type} (c : chan A) : option (A * chan A) :=
  match c with
  | [] => None
  | v :: rest => Some (v, rest)
  end.

(** [FnWaitContainer] wait until container finnish your processing.  The
    goroutine's three statements are three independent sends: none of them
    returns. *)
Definition FnWaitContainer (client : docker.Client) (containerID : string)
  : state Trace (chan error) :=
  call (docker.CallWaitContainer containerID);;
  let '(code, err) := docker.WaitContainer client containerID in
  ret ((match err with Some _ => [err] | None => [] end)
       ++ (if negb (code =? 0)%Z then [Some ErrContainerExecutionFailed] else [])
       ++ [None]).

(** [FnRun] runs the container.  [Some (Stdout, Stderr, err)] when it
    returns, the buffers being [None] for nil pointers; [None] when it
    blocks for ever on the channel. *)
Definition FnRun (client : docker.Client) (containerID input : string)
  : state Trace (option (option string * option string * error)) :=
  err <- FnStart client containerID;;
  match err with
  | Some _ => ret (Some (None, None, err))
  | None =>
      (* attach to write input *)
      r <- FnAttach client containerID (Some input) false false;;
      match snd r with
      | Some _ => ret (Some (None, None, snd r))
      | None =>
          e <- FnWaitContainer client containerID;;
          match recv e with
          | None => ret None
          | Some (err, _) =>
              (* omit logs because execution error is more important *)
              l <- FnLogs client containerID "" "";;
              let '(stdout, stderr, _) := l in
              ret (Some (Some stdout, Some stderr, err))
          end
      end
  end.

(** Run a function on an empty log. *)
Definition run {A : Type} (m : state Trace A) : A * Trace := runState m [].

(** A client whose engine accepts everything and reports nothing; the
    concrete engines below override single methods. *)
Definition quietClient : docker.Client :=
  {| docker.AuthCheck := fun _ =>
       ({| docker.AuthStatus.Status := "Login Succeeded";
           docker.AuthStatus.IdentityToken := "" |}, None);
     docker.BuildImage := fun _ => ("", None);
     docker.PullImage := fun _ _ => None;
     docker.ListContainers := fun _ => ([], None);
     docker.StartContainer := fun _ => None;
     docker.AttachToContainerNonBlocking := fun _ => (docker.closeWaiter, None);
     docker.WaitContainer := fun _ => (0%Z, None);
     docker.Logs := fun _ => ("", "", None) |}.

(** [quietClient] listing the given containers. *)
Definition listingClient (cs : list docker.APIContainers) : docker.Client :=
  {| docker.AuthCheck := docker.AuthCheck quietClient;
     docker.BuildImage := docker.BuildImage quietClient;
     docker.PullImage := docker.PullImage quietClient;
     docker.ListContainers := fun _ => (cs, None);
     docker.StartContainer := docker.StartContainer quietClient;
     docker.AttachToContainerNonBlocking := docker.AttachToContainerNonBlocking quietClient;
     docker.WaitContainer := docker.WaitContainer quietClient;
     docker.Logs := docker.Logs quietClient |}.

(** An engine on which containers run: start and attach answer [start] and
    [attach], the wait call answers [(code, werr)], and log retrieval
    writes [out] and [errout] and answers [lerr]. *)
Definition runningClient (start attach : error) (code : Z) (werr : error)
    (out errout : string) (lerr : error) : docker.Client :=
  {| docker.AuthCheck := docker.AuthCheck quietClient;
     docker.BuildImage := docker.BuildImage quietClient;
     docker.PullImage := docker.PullImage quietClient;
     docker.ListContainers := docker.ListContainers quietClient;
     docker.StartContainer := fun _ => start;
     docker.AttachToContainerNonBlocking := fun _ => (docker.closeWaiter, attach);
     docker.WaitContainer := fun _ => (code, werr);
     docker.Logs := fun _ => (out, errout, lerr) |}.

(** An engine on which images are built and pulled: the build call writes
    [out] and answers [build], the pull call answers [pull]. *)
Definition buildingClient (out : string) (build pull : error) : docker.Client :=
  {| docker.AuthCheck := docker.AuthCheck quietClient;
     docker.BuildImage := fun _ => (out, build);
     docker.PullImage := fun _ _ => pull;
     docker.ListContainers := docker.ListContainers quietClient;
     docker.StartContainer := docker.StartContainer quietClient;
     docker.AttachToContainerNonBlocking := docker.AttachToContainerNonBlocking quietClient;
     docker.WaitContainer := docker.WaitContainer quietClient;
     docker.Logs := docker.Logs quietClient |}.

(** No credentials. *)
Definition noAuth : docker.AuthConfiguration :=
  {| docker.AuthConfiguration.Username := "";
     docker.AuthConfiguration.Password := "";
     docker.AuthConfiguration.Email := "";
     docker.AuthConfiguration.ServerAddress := "";
     docker.AuthConfiguration.IdentityToken := "";
     docker.AuthConfiguration.RegistryToken := "" |}.

(** [&BuildOptions{ImageName: name}], with no infrastructure provider. *)
Definition optionsFor (name : string) : @BuildOptions unit :=
  {| ContextDir := ""; Dockerfile := ""; DoNotUsePrefixImageName := false;
     ImageName := name; RemoteURI := ""; StdIN := ""; iaas := tt;
     Auth := noAuth; ForcePull := false |}.

(** [&BuildOptions{ImageName: name, DoNotUsePrefixImageName: true}]. *)
Definition unprefixedOptionsFor (name : string) : @BuildOptions unit :=
  {| ContextDir := ""; Dockerfile := ""; DoNotUsePrefixImageName := true;
     ImageName := name; RemoteURI := ""; StdIN := ""; iaas := tt;
     Auth := noAuth; ForcePull := false |}.

(** A container as listed, with the given ID and image. *)
Definition container (id image : string) : docker.APIContainers :=
  {| docker.APIContainers.ID := id;
     docker.APIContainers.Image := image;
     docker.APIContainers.Command := "";
     docker.APIContainers.Names := [] |}.

(* ===================================================================== *)
(** ** Package [provision]: the remaining container and image functions  *)
(* ===================================================================== *)

(** The loop of [FnFindContainerByID]: first container whose ID is [ID]. *)
Fixpoint findByID (containers : list docker.APIContainers) (ID : string)
  : docker.APIContainers * error :=
  match containers with
  | [] => (docker.APIContainers.zero, Some ErrContainerNotFound)
  | v :: rest =>
      if docker.APIContainers.ID v =? ID then (v, None)
      else findByID rest ID
  end.

(** [FnFindContainerByID] return container by ID *)
Definition FnFindContainerByID (client : docker.Client) (ID : string)
  : state Trace (docker.APIContainers * error) :=
  let o := listAll in
  call (docker.CallListContainers o);;
  let '(containers, err) := docker.ListContainers client o in
  match err with
  | Some _ => ret (docker.APIContainers.zero, err)
  | None => ret (findByID containers ID)
  end.

(** The methods of the same [*docker.Client] that the functions below call:
    listing images and creating, removing and killing containers. *)
Module dockerx.

Module ListImagesOptions.
Record t : Type := { Filter : string }.
End ListImagesOptions.

(** The fields of a listed image that identify it. *)
Module APIImages.
Record t : Type := {
  ID : string;
  RepoTags : list string;
  RepoDigests : list string
}.
(** The zero value. *)
Definition zero : t := {| ID := ""; RepoTags := []; RepoDigests := [] |}.
End APIImages.

Module RemoveContainerOptions.
Record t : Type := { ID : string; Force : bool }.
End RemoveContainerOptions.

Module KillContainerOptions.
Record t : Type := { ID : string }.
End KillContainerOptions.

(** The fields of [docker.Config] that [FnContainer] sets. *)
Module Config.
Record t : Type := {
  Image : string;
  Cmd : list string;
  Env : list string;
  StdinOnce : bool;
  OpenStdin : bool
}.
End Config.

(** The fields of [docker.HostConfig] that [FnContainer] sets. *)
Module HostConfig.
Record t : Type := { Binds : list string; Runtime : string }.
End HostConfig.

Module CreateContainerOptions.
Record t : Type := {
  Name : string;
  Config : Config.t;
  HostConfig : HostConfig.t
}.
End CreateContainerOptions.

(** A created container, as the engine describes it. *)
Module Container.
Record t : Type := { ID : string; Name : string }.
End Container.

Record Methods : Type := {
  ListImages : ListImagesOptions.t -> list APIImages.t * error;
  CreateContainer : CreateContainerOptions.t -> option Container.t * error;
  RemoveContainer : RemoveContainerOptions.t -> error;
  KillContainer : KillContainerOptions.t -> error
}.

Inductive Call : Type :=
| CallListImages (o : ListImagesOptions.t)
| CallCreateContainer (o : CreateContainerOptions.t)
| CallRemoveContainer (o : RemoveContainerOptions.t)
| CallKillContainer (o : KillContainerOptions.t).

End dockerx.

(** Issue one of these calls. *)
Definition xcall (c : dockerx.Call) : state (list dockerx.Call) unit :=
  modify (fun t => t ++ [c]);; ret tt.

(** [ContainerOptions] are options used in container *)
Record ContainerOptions : Type := {
  Cmd : list string;
  Volumes : list string;
  Image : string;
  Env : list string;
  Runtime : string
}.

(** [FnRemove] remove container *)
Definition FnRemove (client : dockerx.Methods) (containerID : string)
  : state (list dockerx.Call) error :=
  let o := {| dockerx.RemoveContainerOptions.ID := containerID;
              dockerx.RemoveContainerOptions.Force := true |} in
  xcall (dockerx.CallRemoveContainer o);;
  ret (dockerx.RemoveContainer client o).

(** [FnKillContainer] kill the container *)
Definition FnKillContainer (client : dockerx.Methods) (containerID : string)
  : state (list dockerx.Call) error :=
  let o := {| dockerx.KillContainerOptions.ID := containerID |} in
  xcall (dockerx.CallKillContainer o);;
  ret (dockerx.KillContainer client o).

(** [FnContainer] create container.  [newV4] is what [uuid.NewV4()]
    answers, the UUID being given by its [String()], the only use made of
    it. *)
Definition FnContainer (client : dockerx.Methods) (newV4 : string * error)
    (opts : ContainerOptions)
  : state (list dockerx.Call) (option dockerx.Container.t * error) :=
  let config := {| dockerx.Config.Image := Image opts;
                   dockerx.Config.Cmd := Cmd opts;
                   dockerx.Config.Env := Env opts;
                   dockerx.Config.StdinOnce := true;
                   dockerx.Config.OpenStdin := true |} in
  let '(uid, err) := newV4 in
  match err with
  | Some _ => ret (None, err)
  | None =>
      let o := {| dockerx.CreateContainerOptions.Name := ("gofn-" ++ uid)%string;
                  dockerx.CreateContainerOptions.HostConfig :=
                    {| dockerx.HostConfig.Binds := Volumes opts;
                       dockerx.HostConfig.Runtime := Runtime opts |};
                  dockerx.CreateContainerOptions.Config := config |} in
      xcall (dockerx.CallCreateContainer o);;
      ret (dockerx.CreateContainer client o)
  end.

(** [FnFindImage] returns image data by name *)
Definition FnFindImage (client : dockerx.Methods) (imageName : string)
  : state (list dockerx.Call) (dockerx.APIImages.t * error) :=
  let o := {| dockerx.ListImagesOptions.Filter := imageName |} in
  xcall (dockerx.CallListImages o);;
  let '(imgs, err) := dockerx.ListImages client o in
  match err with
  | Some _ => ret (dockerx.APIImages.zero, err)
  | None =>
      match imgs with
      | [] => ret (dockerx.APIImages.zero, Some ErrImageNotFound)
      | image :: _ => ret (image, None)
      end
  end.

(** Run one of these functions on an empty log. *)
Definition xrun {A : Type} (m : state (list dockerx.Call) A)
  : A * list dockerx.Call := runState m [].

(** A client answering the given image listing and creation result, and
    accepting removals and kills. *)
Definition imagesClient (imgs : list dockerx.APIImages.t * error)
    (created : option dockerx.Container.t * error) : dockerx.Methods :=
  {| dockerx.ListImages := fun _ => imgs;
     dockerx.CreateContainer := fun _ => created;
     dockerx.RemoveContainer := fun _ => None;
     dockerx.KillContainer := fun _ => None |}.

(** An engine with credentials checking: the auth check answers [check],
    builds and pulls succeed. *)
Definition authClient (check : docker.AuthStatus * error) : docker.Client :=
  {| docker.AuthCheck := fun _ => check;
     docker.BuildImage := docker.BuildImage quietClient;
     docker.PullImage := docker.PullImage quietClient;
     docker.ListContainers := docker.ListContainers quietClient;
     docker.StartContainer := docker.StartContainer quietClient;
     docker.AttachToContainerNonBlocking := docker.AttachToContainerNonBlocking quietClient;
     docker.WaitContainer := docker.WaitContainer quietClient;
     docker.Logs := docker.Logs quietClient |}.

(** A client whose listing of containers fails. *)
Definition deafClient (e : error_value) : docker.Client :=
  {| docker.AuthCheck := docker.AuthCheck quietClient;
     docker.BuildImage := docker.BuildImage quietClient;
     docker.PullImage := docker.PullImage quietClient;
     docker.ListContainers := fun _ => ([], Some e);
     docker.StartContainer := docker.StartContainer quietClient;
     docker.AttachToContainerNonBlocking := docker.AttachToContainerNonBlocking quietClient;
     docker.WaitContainer := docker.WaitContainer quietClient;
     docker.Logs := docker.Logs quietClient |}.

(** Credentials of a user, without server address. *)
Definition userAuth : docker.AuthConfiguration :=
  {| docker.AuthConfiguration.Username := "gopher";
     docker.AuthConfiguration.Password := "secret";
     docker.AuthConfiguration.Email := "";
     docker.AuthConfiguration.ServerAddress := "";
     docker.AuthConfiguration.IdentityToken := "";
     docker.AuthConfiguration.RegistryToken := "" |}.

(** [&BuildOptions{ImageName: name, ForcePull: true}]. *)
Definition forcedOptionsFor (name : string) : @BuildOptions unit :=
  {| ContextDir := ""; Dockerfile := ""; DoNotUsePrefixImageName := false;
     ImageName := name; RemoteURI := ""; StdIN := ""; iaas := tt;
     Auth := noAuth; ForcePull := true |}.

(** The calls among logged events, in order. *)
Definition callsOf {Iaas : Type} (evs : list (@Event Iaas)) : list docker.Call :=
  map ev_call evs.

(* ===================================================================== *)
(** ** Package [digitalocean]: settings of the provider                  *)
(* ===================================================================== *)

Module digitalocean.

Definition defaultRegion : string := "nyc3".
Definition defaultSize : string := "1gb".
Definition defaultImageSlug : string := "ubuntu-16-04-x64".

Section Provider.

(** The types of the handles the provider keeps: [*libmachine.Client],
    [*host.Host] and [context.Context]. *)
Context {ClientT HostT CtxT : Type}.

(** [gofnssh.KeysDir], [gofnssh.PublicKeyName] and [gofnssh.PrivateKeyName]
    of package [ssh], and [filepath.Join]. *)
Variables KeysDir PublicKeyName PrivateKeyName : string.
Variable filepath_Join : list string -> string.

(** [os.Getenv]: the value of a variable, empty when it is not set. *)
Variable Getenv : string -> string.

(** [Digitalocean] definition, represents a concrete implementation of an
    iaas *)
Record Digitalocean : Type := {
  Client : option ClientT;
  Host : option HostT;
  Region : string;
  Size : string;
  ImageSlug : string;
  KeyID : Z;
  Ctx : option CtxT;
  sshPublicKeyPath : string;
  sshPrivateKeyPath : string
}.

(** [do.sshPublicKeyPath = v] *)
Definition set_sshPublicKeyPath (v : string) (do : Digitalocean) : Digitalocean :=
  {| Client := Client do; Host := Host do; Region := Region do; Size := Size do;
     ImageSlug := ImageSlug do; KeyID := KeyID do; Ctx := Ctx do;
     sshPublicKeyPath := v; sshPrivateKeyPath := sshPrivateKeyPath do |}.

(** [do.sshPrivateKeyPath = v] *)
Definition set_sshPrivateKeyPath (v : string) (do : Digitalocean) : Digitalocean :=
  {| Client := Client do; Host := Host do; Region := Region do; Size := Size do;
     ImageSlug := ImageSlug do; KeyID := KeyID do; Ctx := Ctx do;
     sshPublicKeyPath := sshPublicKeyPath do; sshPrivateKeyPath := v |}.

(** [SetSSHPublicKeyPath] adjust the system path for the ssh key *)
Definition SetSSHPublicKeyPath (path : string) : state Digitalocean unit :=
  modify (set_sshPublicKeyPath path);; ret tt.

(** [SetSSHPrivateKeyPath] adjust the system path for the ssh key *)
Definition SetSSHPrivateKeyPath (path : string) : state Digitalocean unit :=
  modify (set_sshPrivateKeyPath path);; ret tt.

(** [GetSSHPublicKeyPath] the path may change according to the environment
    variable GOFN_SSH_PUBLICKEY_PATH or by using the SetSSHPublicKeyPath *)
Definition GetSSHPublicKeyPath : state Digitalocean string :=
  let path := Getenv "GOFN_SSH_PUBLICKEY_PATH" in
  if negb (path =? "") then ret path
  else
    do <- get;;
    let path := sshPublicKeyPath do in
    if negb (path =? "") then ret path
    else
      put (set_sshPublicKeyPath (filepath_Join [KeysDir; PublicKeyName]) do);;
      do <- get;;
      ret (sshPublicKeyPath do).

(** [GetSSHPrivateKeyPath] the path may change according to the environment
    variable GOFN_SSH_PRIVATEKEY_PATH or by using the SetSSHPrivateKeyPath *)
Definition GetSSHPrivateKeyPath : state Digitalocean string :=
  let path := Getenv "GOFN_SSH_PRIVATEKEY_PATH" in
  if negb (path =? "") then ret path
  else
    do <- get;;
    let path := sshPrivateKeyPath do in
    if negb (path =? "") then ret path
    else
      put (set_sshPrivateKeyPath (filepath_Join [KeysDir; PrivateKeyName]) do);;
      do <- get;;
      ret (sshPrivateKeyPath do).

(** [GetRegion] returns region or default if empty *)
Definition GetRegion (do : Digitalocean) : string :=
  if Region do =? "" then defaultRegion else Region do.

(** [GetSize] returns size or default if empty *)
Definition GetSize (do : Digitalocean) : string :=
  if Size do =? "" then defaultSize else Size do.

(** [GetImageSlug] returns image slug  or default if empty *)
Definition GetImageSlug (do : Digitalocean) : string :=
  if ImageSlug do =? "" then defaultImageSlug else ImageSlug do.

End Provider.

(** A provider with nothing set and no handles. *)
Definition blank : @Digitalocean unit unit unit :=
  {| Client := None; Host := None; Region := ""; Size := ""; ImageSlug := "";
     KeyID := 0%Z; Ctx := None; sshPublicKeyPath := ""; sshPrivateKeyPath := "" |}.

(** An environment in which only [name] is set, to [value]. *)
Definition onlyEnv (name value : string) : string -> string :=
  fun n => if n =? name then value else "".

(** An environment in which nothing is set. *)
Definition noEnv : string -> string := fun _ => "".

End digitalocean.

(* ===================================================================== *)
(** ** Facts about the string functions                                  *)
(* ===================================================================== *)

(** [HasPrefix s p] holds exactly when [s] is [p] followed by something. *)
Lemma HasPrefix_iff (s p : string) :
  strings.HasPrefix s p = true <-> exists rest, s = (p ++ rest)%string.
Proof.
  unfold strings.HasPrefix. revert s.
  induction p as [|a p IH]; intros s.
  - split; [intros _; exists s; reflexivity | intros _; destruct s; reflexivity].
  - destruct s as [|b s]; simpl.
    + split; [discriminate | intros [rest H]; discriminate].
    + destruct (ascii_dec a b) as [->|Hab].
      * rewrite IH. split; intros [rest H]; exists rest; congruence.
      * split; [discriminate | intros [rest H]; congruence].
Qed.

(** A string with the longer prefix has the shorter one. *)
Lemma HasPrefix_gofn_slash (s : string) :
  strings.HasPrefix s "gofn/" = true -> strings.HasPrefix s "gofn" = true.
Proof.
  intros H. apply HasPrefix_iff in H as [rest ->].
  apply HasPrefix_iff. exists (String "/" rest). reflexivity.
Qed.

(* ===================================================================== *)
(** ** Listing and finding containers                                    *)
(* ===================================================================== *)

(** The append loop of [FnListContainers] is a filter. *)
Lemma fold_left_append_filter {A : Type} (keep : A -> bool) (l acc : list A) :
  fold_left (fun acc x => if keep x then acc ++ [x] else acc) l acc
  = acc ++ filter keep l.
Proof.
  revert acc. induction l as [|x l IH]; intros acc; simpl.
  - now rewrite app_nil_r.
  - rewrite IH. destruct (keep x); [now rewrite <- app_assoc | reflexivity].
Qed.

(** [FnListContainers] issues the one listing call and keeps the containers
    of the listing whose image starts with [gofn/]; a failed listing yields
    no container and the error. *)
Lemma FnListContainers_run (client : docker.Client) :
  run (FnListContainers client) =
  (match docker.ListContainers client listAll with
   | (_, Some e) => ([], Some e)
   | (hostContainers, None) =>
       (filter (fun c => strings.HasPrefix (docker.APIContainers.Image c) "gofn/")
               hostContainers, None)
   end, [docker.CallListContainers listAll]).
Proof.
  unfold run, FnListContainers. cbn.
  destruct (docker.ListContainers client listAll) as [cs [e|]]; cbn.
  - reflexivity.
  - now rewrite fold_left_append_filter.
Qed.

(** C7: whatever containers the engine reports, [FnListContainers] returns
    exactly those whose image name starts with [gofn/], in the reported
    order, and none of the others. *)
Theorem FnListContainers_only_prefixed
    (client : docker.Client) (hostContainers : list docker.APIContainers) :
  docker.ListContainers client listAll = (hostContainers, None) ->
  let containers := fst (fst (run (FnListContainers client))) in
  fst (run (FnListContainers client)) =
    (filter (fun c => strings.HasPrefix (docker.APIContainers.Image c) "gofn/")
            hostContainers, None)
  /\ (forall c, In c containers <->
        In c hostContainers /\
        exists rest, docker.APIContainers.Image c = ("gofn/" ++ rest)%string).
Proof.
  intros Hlist. rewrite FnListContainers_run, Hlist. cbn. split.
  - reflexivity.
  - intros c. rewrite filter_In, HasPrefix_iff. reflexivity.
Qed.

(** [findByImage] fails exactly when no container carries the image. *)
Lemma findByImage_not_found (containers : list docker.APIContainers) (imageName : string) :
  (forall v, In v containers -> docker.APIContainers.Image v <> imageName) ->
  findByImage containers imageName =
    (docker.APIContainers.zero, Some ErrContainerNotFound).
Proof.
  induction containers as [|v rest IH]; intros Hnone; simpl.
  - reflexivity.
  - destruct (String.eqb_spec (docker.APIContainers.Image v) imageName) as [Heq|_].
    + exfalso. apply (Hnone v); [now left | exact Heq].
    + apply IH. intros w Hw. apply Hnone. now right.
Qed.

(** When [findByImage] succeeds, the container is a listed one with that
    image. *)
Lemma findByImage_found (containers : list docker.APIContainers) (imageName : string)
    (v : docker.APIContainers) :
  findByImage containers imageName = (v, None) ->
  In v containers /\ docker.APIContainers.Image v = imageName.
Proof.
  induction containers as [|w rest IH]; simpl.
  - discriminate.
  - destruct (String.eqb_spec (docker.APIContainers.Image w) imageName) as [Heq|_].
    + intros [= <-]. split; [now left | exact Heq].
    + intros H. destruct (IH H) as [Hin Himg]. split; [now right | exact Himg].
Qed.

(** What [FnFindContainer] does on a listing: the name is compared as
    [gofn/<name>] when it does not start with [gofn] (no slash), and as it
    is otherwise. *)
Lemma FnFindContainer_run (client : docker.Client) (imageName : string)
    (containers : list docker.APIContainers) :
  docker.ListContainers client listAll = (containers, None) ->
  fst (run (FnFindContainer client imageName)) =
    findByImage containers
      (if strings.HasPrefix imageName "gofn" then imageName
       else ("gofn/" ++ imageName)%string).
Proof.
  intros Hlist. unfold run, FnFindContainer. cbn. rewrite Hlist. cbn.
  destruct (strings.HasPrefix imageName "gofn"); reflexivity.
Qed.

(** A name already carrying [gofn/] is compared unchanged. *)
Lemma FnFindContainer_prefixed (client : docker.Client) (imageName : string)
    (containers : list docker.APIContainers) :
  docker.ListContainers client listAll = (containers, None) ->
  strings.HasPrefix imageName "gofn/" = true ->
  fst (run (FnFindContainer client imageName)) = findByImage containers imageName.
Proof.
  intros Hlist Hp. rewrite (FnFindContainer_run _ _ _ Hlist).
  now rewrite (HasPrefix_gofn_slash _ Hp).
Qed.

(** C6: the name [gofnpy] does not carry the prefix [gofn/], yet
    [FnFindContainer] compares it as it is: the container whose image is
    [gofn/gofnpy] is listed, the normalized name would find it, and the
    function answers that no container was found. *)
Theorem FnFindContainer_gofn_without_slash :
  let c := container "4f2a" "gofn/gofnpy" in
  strings.HasPrefix "gofnpy" "gofn/" = false
  /\ findByImage [c] ("gofn/" ++ "gofnpy")%string = (c, None)
  /\ fst (run (FnFindContainer (listingClient [c]) "gofnpy"))
     = (docker.APIContainers.zero, Some ErrContainerNotFound).
Proof. repeat split. Qed.

(* ===================================================================== *)
(** ** Waiting and running                                               *)
(* ===================================================================== *)

(** The goroutine of [FnWaitContainer] issues the wait call and then sends
    the wait error if there is one, the failure sentinel if the code is not
    zero, and nil: one, two or three values. *)
Lemma FnWaitContainer_run (client : docker.Client) (containerID : string) :
  run (FnWaitContainer client containerID) =
  (let '(code, err) := docker.WaitContainer client containerID in
   (match err with Some _ => [err] | None => [] end)
   ++ (if (code =? 0)%Z then [] else [Some ErrContainerExecutionFailed])
   ++ [None],
   [docker.CallWaitContainer containerID]).
Proof.
  unfold run, FnWaitContainer. cbn.
  destruct (docker.WaitContainer client containerID) as [code err]. cbn.
  destruct (code =? 0)%Z; reflexivity.
Qed.

(** The first value on the channel, the one a single receive takes: the
    wait error, else the sentinel for a non-zero code, else nil.  There
    always is one, so a first receive never blocks for ever. *)
Lemma FnWaitContainer_first (client : docker.Client) (containerID : string) :
  exists rest,
    recv (fst (run (FnWaitContainer client containerID))) =
    Some (match docker.WaitContainer client containerID with
          | (_, Some e) => Some e
          | (code, None) =>
              if (code =? 0)%Z then None else Some ErrContainerExecutionFailed
          end, rest).
Proof.
  rewrite FnWaitContainer_run.
  destruct (docker.WaitContainer client containerID) as [code [e|]]; cbn.
  - eexists; reflexivity.
  - destruct (code =? 0)%Z; eexists; reflexivity.
Qed.

(** The number of values the goroutine sends. *)
Lemma FnWaitContainer_sends (client : docker.Client) (containerID : string) :
  List.length (fst (run (FnWaitContainer client containerID))) =
  (let '(code, err) := docker.WaitContainer client containerID in
   (match err with Some _ => 1 | None => 0 end)
   + (if (code =? 0)%Z then 0 else 1) + 1)%nat.
Proof.
  rewrite FnWaitContainer_run.
  destruct (docker.WaitContainer client containerID) as [code [e|]]; cbn;
    destruct (code =? 0)%Z; reflexivity.
Qed.

(** Exactly one value is sent only when the wait call succeeds with code
    zero. *)
Lemma FnWaitContainer_one_send_iff (client : docker.Client) (containerID : string) :
  List.length (fst (run (FnWaitContainer client containerID))) = 1%nat
  <-> docker.WaitContainer client containerID = (0%Z, None).
Proof.
  rewrite FnWaitContainer_sends.
  destruct (docker.WaitContainer client containerID) as [code [e|]].
  - split; [|discriminate]. destruct (code =? 0)%Z; cbn; lia.
  - destruct (Z.eqb_spec code 0) as [->|Hne]; cbn.
    + split; reflexivity.
    + split; [lia | intros [= H]; contradiction].
Qed.

(** C1: for a container that exits with code 1, the wait call succeeding,
    the goroutine of [FnWaitContainer] sends two values on the channel: the
    failure sentinel and then nil.  A receiver that receives twice gets
    both. *)
Theorem FnWaitContainer_nonzero_exit_sends_twice :
  let client := runningClient None None 1 None "" "" None in
  let errs := fst (run (FnWaitContainer client "4f2a")) in
  errs = [Some ErrContainerExecutionFailed; None]
  /\ recv errs = Some (Some ErrContainerExecutionFailed, [None])
  /\ recv [None] = Some (@None error_value, []).
Proof. repeat split. Qed.

(** [FnRun] in closed form: which calls are issued and what is returned,
    by the answers of the engine. *)
Lemma FnRun_run (client : docker.Client) (containerID input : string) :
  run (FnRun client containerID input) =
  match docker.StartContainer client containerID with
  | Some e => (Some (None, None, Some e), [docker.CallStartContainer containerID])
  | None =>
      let a := attachOptions containerID (Some input) false false in
      match snd (docker.AttachToContainerNonBlocking client a) with
      | Some e =>
          (Some (None, None, Some e),
           [docker.CallStartContainer containerID;
            docker.CallAttachToContainerNonBlocking a])
      | None =>
          let '(out, errout, _) := docker.Logs client (logsOptions containerID) in
          (Some (Some out, Some errout,
                 match docker.WaitContainer client containerID with
                 | (_, Some e) => Some e
                 | (code, None) =>
                     if (code =? 0)%Z then None
                     else Some ErrContainerExecutionFailed
                 end),
           [docker.CallStartContainer containerID;
            docker.CallAttachToContainerNonBlocking a;
            docker.CallWaitContainer containerID;
            docker.CallLogs (logsOptions containerID)])
      end
  end.
Proof.
  unfold run, FnRun, FnStart, FnAttach, FnLogs, FnWaitContainer. cbn.
  destruct (docker.StartContainer client containerID) as [e|]; cbn; [reflexivity|].
  destruct (docker.AttachToContainerNonBlocking client _) as [w [e|]]; cbn;
    [reflexivity|].
  destruct (docker.WaitContainer client containerID) as [code [e|]]; cbn.
  - destruct (docker.Logs client _) as [[out errout] lerr]. reflexivity.
  - destruct (code =? 0)%Z; cbn;
      destruct (docker.Logs client _) as [[out errout] lerr]; reflexivity.
Qed.

(** C2: when start, attach and the wait call succeed, [FnRun] returns the
    bytes that log retrieval wrote to the two buffers, with a nil error for
    exit code 0 and with the failure sentinel for any other code; the
    answer [lerr] of the log retrieval call has no part in the result. *)
Theorem FnRun_exit_code
    (client : docker.Client) (containerID input : string)
    (code : Z) (out errout : string) (lerr : error) :
  docker.StartContainer client containerID = None ->
  snd (docker.AttachToContainerNonBlocking client
         (attachOptions containerID (Some input) false false)) = None ->
  docker.WaitContainer client containerID = (code, None) ->
  docker.Logs client (logsOptions containerID) = (out, errout, lerr) ->
  (code = 0%Z ->
     fst (run (FnRun client containerID input)) = Some (Some out, Some errout, None))
  /\ (code <> 0%Z ->
     fst (run (FnRun client containerID input)) =
       Some (Some out, Some errout, Some ErrContainerExecutionFailed)).
Proof.
  intros Hstart Hattach Hwait Hlogs.
  rewrite FnRun_run, Hstart. cbn zeta. rewrite Hattach, Hwait, Hlogs. cbn.
  destruct (Z.eqb_spec code 0); split; intros; (reflexivity || contradiction).
Qed.

(** C9: a failed start returns its error with both buffers nil after the
    start call alone; a failed attach returns its error with both buffers
    nil after start and attach alone; and whenever [FnRun] returns a non-nil
    buffer, the wait call has been issued. *)
Theorem FnRun_start_attach_failure
    (client : docker.Client) (containerID input : string) :
  (forall e, docker.StartContainer client containerID = Some e ->
     run (FnRun client containerID input) =
       (Some (None, None, Some e), [docker.CallStartContainer containerID]))
  /\ (forall e, docker.StartContainer client containerID = None ->
     snd (docker.AttachToContainerNonBlocking client
            (attachOptions containerID (Some input) false false)) = Some e ->
     run (FnRun client containerID input) =
       (Some (None, None, Some e),
        [docker.CallStartContainer containerID;
         docker.CallAttachToContainerNonBlocking
           (attachOptions containerID (Some input) false false)]))
  /\ (forall stdout stderr err,
     fst (run (FnRun client containerID input)) = Some (stdout, stderr, err) ->
     stdout <> None \/ stderr <> None ->
     docker.StartContainer client containerID = None
     /\ snd (docker.AttachToContainerNonBlocking client
               (attachOptions containerID (Some input) false false)) = None
     /\ In (docker.CallWaitContainer containerID)
           (snd (run (FnRun client containerID input)))).
Proof.
  rewrite FnRun_run. split; [|split].
  - intros e ->. reflexivity.
  - intros e -> Hattach. cbn zeta. now rewrite Hattach.
  - intros stdout stderr err.
    destruct (docker.StartContainer client containerID) as [e|]; cbn zeta.
    { cbn. intros [= <- <- _] [Hout|Herr]; contradiction. }
    destruct (snd (docker.AttachToContainerNonBlocking client _)) as [e|].
    { cbn. intros [= <- <- _] [Hout|Herr]; contradiction. }
    destruct (docker.Logs client _) as [[out errout] lerr]. cbn.
    intros _ _. repeat split. do 2 right. now left.
Qed.
(* ===================================================================== *)
(** ** Image resolution                                                  *)
(* ===================================================================== *)

Section ImageResolverFacts.

Context {Iaas : Type}.
(** The library's [ParseRepositoryTag]; every fact below holds whatever it
    answers. *)
Variable parse : string -> string * string.

Local Notation event c o := {| ev_call := c; ev_opts := o |}.

(** [auth] in closed form. *)
Lemma auth_run (client : docker.Client) (o : @BuildOptions Iaas) (evs : list Event) :
  runState (auth client) {| w_opts := o; w_events := evs |} =
  if hasCredentials (Auth o) then
    let o1 := addressed o in
    let evs1 := evs ++ [event (docker.CallAuthCheck (Auth o1)) o1] in
    match docker.AuthCheck client (Auth o1) with
    | (_, Some e) => (Some e, {| w_opts := o1; w_events := evs1 |})
    | (status, None) =>
        (None,
         {| w_opts := set_Auth (set_IdentityToken
                                  (docker.AuthStatus.IdentityToken status) (Auth o1)) o1;
            w_events := evs1 |})
    end
  else (None, {| w_opts := o; w_events := evs |}).
Proof.
  unfold auth, addressed. cbn.
  destruct (hasCredentials (Auth o)); [|reflexivity].
  destruct (docker.AuthConfiguration.ServerAddress (Auth o) =? ""); cbn.
  - destruct (docker.AuthCheck client _) as [status [e|]]; reflexivity.
  - destruct (docker.AuthCheck client _) as [status [e|]]; reflexivity.
Qed.

(** [FnPull] issues one pull call and changes nothing in the options. *)
Lemma FnPull_run (client : docker.Client) (o : @BuildOptions Iaas) (evs : list Event) :
  runState (FnPull parse client) {| w_opts := o; w_events := evs |} =
  let po := pullImageOptions parse (GetImageName o) in
  (docker.PullImage client po (Auth o),
   {| w_opts := o;
      w_events := evs ++ [event (docker.CallPullImage po (Auth o)) o] |}).
Proof. reflexivity. Qed.

(** [FnImageBuild] is: the two defaults, [auth], and on success
    [resolve]. *)
Lemma FnImageBuild_run (client : docker.Client) (opts : @BuildOptions Iaas)
    (evs : list Event) :
  runState (FnImageBuild parse client) {| w_opts := opts; w_events := evs |} =
  let '(err, w1) :=
    runState (auth client) {| w_opts := defaults opts; w_events := evs |} in
  match err with
  | Some _ => (("", None, err), w1)
  | None => resolve parse client w1
  end.
Proof.
  unfold FnImageBuild, defaults, resolve.
  generalize (@auth Iaas client). intros authenticate. unfold error in *. cbn.
  destruct (Dockerfile opts =? ""); cbn;
  destruct (ContextDir opts =? ""); cbn;
  destruct (RemoteURI opts =? ""); cbn.
  all: destruct (runState authenticate _) as [[e|] [o1 evs1]]; cbn; try reflexivity.
  all: destruct (ForcePull o1); cbn; try reflexivity.
  all: destruct (docker.BuildImage client _) as [stdout [e|]]; cbn; try reflexivity.
  all: destruct (strings.Contains _ _); cbn; try reflexivity.
  all: destruct (docker.PullImage client _ _); reflexivity.
Qed.


(** [IndexByte] finds a byte exactly when the string has it. *)
Lemma IndexByte_In (s : string) (c : ascii) :
  (-1 <? strings.IndexByte s c)%Z = true <-> In c (list_ascii_of_string s).
Proof.
  induction s as [|a s IH]; simpl.
  - split; [discriminate | contradiction].
  - destruct (Ascii.eqb_spec a c) as [->|Hne].
    + split; [now left | reflexivity].
    + destruct (Z.ltb_spec (strings.IndexByte s c) 0) as [Hneg|Hpos].
      * split; [discriminate|]. intros [Heq|Hin]; [contradiction|].
        apply IH in Hin. apply Z.ltb_lt in Hin. lia.
      * split; [intros _; right; apply IH; apply Z.ltb_lt; lia|].
        intros _. apply Z.ltb_lt. lia.
Qed.

(** [parseDockerImage] by cases on what the library parser answers. *)
Lemma parseDockerImage_cases (image : string) :
  let repo := fst (parse image) in
  let tag := snd (parse image) in
  (tag <> "" -> parseDockerImage parse image = (repo, tag))
  /\ (tag = "" -> In "@"%char (list_ascii_of_string image) ->
      parseDockerImage parse image = (image, ""))
  /\ (tag = "" -> ~ In "@"%char (list_ascii_of_string image) ->
      parseDockerImage parse image = (repo, "latest")).
Proof.
  unfold parseDockerImage, strings.IndexRune.
  destruct (parse image) as [repo tag]. cbn.
  destruct (String.eqb_spec tag "") as [->|Hne]; cbn.
  - pose proof (IndexByte_In image "@") as Hat.
    destruct (-1 <? strings.IndexByte image "@")%Z.
    + split; [intros Hne; contradiction|].
      split; [intros _ _; reflexivity|].
      intros _ Hno. exfalso. apply Hno, Hat. reflexivity.
    + split; [intros Hne; contradiction|].
      split; [|intros _ _; reflexivity].
      intros _ Hin. apply Hat in Hin. discriminate.
  - split; [intros _; reflexivity|].
    split; intros Heq; contradiction.
Qed.

(** C4: the one pull call of [FnPull] for the resolved name carries: the
    parser's repository and tag when the name has a tag; the whole name and
    an empty tag when it has no tag and contains ['@']; the parser's
    repository and the tag [latest] when it has neither. *)
Theorem FnPull_repository_and_tag (client : docker.Client) (opts : @BuildOptions Iaas) :
  let image := GetImageName opts in
  let repo := fst (parse image) in
  let tag := snd (parse image) in
  let sent := pulls (w_events (snd (run_build (FnPull parse client) opts))) in
  (tag <> "" ->
     sent = [({| docker.PullImageOptions.Repository := repo;
                 docker.PullImageOptions.Tag := tag |}, Auth opts)])
  /\ (tag = "" -> In "@"%char (list_ascii_of_string image) ->
     sent = [({| docker.PullImageOptions.Repository := image;
                 docker.PullImageOptions.Tag := "" |}, Auth opts)])
  /\ (tag = "" -> ~ In "@"%char (list_ascii_of_string image) ->
     sent = [({| docker.PullImageOptions.Repository := repo;
                 docker.PullImageOptions.Tag := "latest" |}, Auth opts)]).
Proof.
  cbn zeta. unfold run_build. rewrite FnPull_run. cbn.
  unfold pullImageOptions.
  destruct (parseDockerImage_cases (GetImageName opts)) as (Htag & Hdigest & Hplain).
  split; [intros Hne; now rewrite Htag|].
  split; [intros Heq Hin; now rewrite Hdigest | intros Heq Hno; now rewrite Hplain].
Qed.

(** [addressed] after [defaults] touches the server address only. *)
Lemma Auth_addressed_defaults (opts : @BuildOptions Iaas) :
  Auth (addressed (defaults opts)) = Auth (addressed opts).
Proof.
  unfold addressed, defaults.
  destruct (Dockerfile opts =? ""); cbn;
    destruct (ContextDir opts =? ""); cbn;
    destruct (RemoteURI opts =? ""); cbn;
    destruct (docker.AuthConfiguration.ServerAddress (Auth opts) =? "");
    reflexivity.
Qed.

(** Case analysis on everything [FnImageBuild] branches on. *)
Ltac build_cases client opts :=
  unfold run_build; rewrite FnImageBuild_run, auth_run;
  unfold defaults, addressed, resolve;
  destruct (Dockerfile opts =? ""); cbn;
  destruct (ContextDir opts =? ""); cbn;
  destruct (RemoteURI opts =? ""); cbn;
  destruct (hasCredentials (Auth opts)); cbn;
  try (destruct (docker.AuthConfiguration.ServerAddress (Auth opts) =? ""); cbn);
  try (destruct (docker.AuthCheck client _) as [? [?|]]; cbn);
  try (destruct (ForcePull opts) eqn:Hforce; cbn);
  try (destruct (docker.BuildImage client _) as [? [?|]]; cbn);
  try (destruct (strings.Contains _ _); cbn);
  try (destruct (docker.PullImage client _ _); cbn).

(** C10: the options the caller sees after [FnImageBuild]: an empty
    [Dockerfile] has become [Dockerfile]; an empty [ContextDir] with an empty
    [RemoteURI] has become [./]; with credentials, an empty server address
    has become the default one and the identity token is the one the auth
    check returned, if it succeeded; every other field, of the options and
    of [Auth], is as it was. *)
Theorem FnImageBuild_options_after (client : docker.Client) (opts : @BuildOptions Iaas) :
  let after := w_opts (snd (run_build (FnImageBuild parse client) opts)) in
  Dockerfile after = (if Dockerfile opts =? "" then "Dockerfile" else Dockerfile opts)
  /\ ContextDir after =
       (if (ContextDir opts =? "") && (RemoteURI opts =? "") then "./"
        else ContextDir opts)
  /\ docker.AuthConfiguration.ServerAddress (Auth after) =
       (if hasCredentials (Auth opts)
           && (docker.AuthConfiguration.ServerAddress (Auth opts) =? "")
        then "https://index.docker.io/v1/"
        else docker.AuthConfiguration.ServerAddress (Auth opts))
  /\ docker.AuthConfiguration.IdentityToken (Auth after) =
       (if hasCredentials (Auth opts) then
          match docker.AuthCheck client (Auth (addressed opts)) with
          | (status, None) => docker.AuthStatus.IdentityToken status
          | (_, Some _) => docker.AuthConfiguration.IdentityToken (Auth opts)
          end
        else docker.AuthConfiguration.IdentityToken (Auth opts))
  /\ (docker.AuthConfiguration.Username (Auth after) =
        docker.AuthConfiguration.Username (Auth opts)
      /\ docker.AuthConfiguration.Password (Auth after) =
        docker.AuthConfiguration.Password (Auth opts)
      /\ docker.AuthConfiguration.Email (Auth after) =
        docker.AuthConfiguration.Email (Auth opts)
      /\ docker.AuthConfiguration.RegistryToken (Auth after) =
        docker.AuthConfiguration.RegistryToken (Auth opts))
  /\ (DoNotUsePrefixImageName after = DoNotUsePrefixImageName opts
      /\ ImageName after = ImageName opts
      /\ RemoteURI after = RemoteURI opts
      /\ StdIN after = StdIN opts
      /\ iaas after = iaas opts
      /\ ForcePull after = ForcePull opts).
Proof.
  cbn zeta. rewrite <- (Auth_addressed_defaults opts).
  build_cases client opts; repeat split; (reflexivity || exact Hforce).
Qed.

(** C8: with [ContextDir] and [RemoteURI] both empty, the options hold
    [./] as context directory when [FnImageBuild] returns and at every
    engine call it logs (auth check, build, pull), and a build call is given
    [./]. *)
Theorem FnImageBuild_context_default (client : docker.Client) (opts : @BuildOptions Iaas) :
  ContextDir opts = "" -> RemoteURI opts = "" ->
  let w := snd (run_build (FnImageBuild parse client) opts) in
  ContextDir (w_opts w) = "./"
  /\ Forall (fun ev => ContextDir (ev_opts ev) = "./") (w_events w)
  /\ (forall b, In (docker.CallBuildImage b) (map ev_call (w_events w)) ->
        docker.BuildImageOptions.ContextDir b = "./").
Proof.
  intros Hctx Hremote. cbn zeta.
  unfold run_build. rewrite FnImageBuild_run, auth_run.
  assert (Hd : ContextDir (defaults opts) = "./").
  { unfold defaults. destruct (Dockerfile opts =? ""); cbn;
      rewrite Hctx, Hremote; reflexivity. }
  revert Hd. generalize (defaults opts). intros o Hd.
  unfold addressed, resolve.
  destruct (hasCredentials (Auth o)); cbn;
    try (destruct (docker.AuthConfiguration.ServerAddress (Auth o) =? ""); cbn);
    try (destruct (docker.AuthCheck client _) as [status [e|]]; cbn);
    try (destruct (ForcePull o); cbn);
    try (destruct (docker.BuildImage client _) as [stdout [e'|]]; cbn);
    try (destruct (strings.Contains _ _); cbn).
  all: split; [exact Hd|].
  all: split; [repeat constructor; exact Hd|].
  all: intros b Hin;
    repeat (destruct Hin as [Hin|Hin];
            [try discriminate; injection Hin as <-; exact Hd|]);
    contradiction.
Qed.

(** [auth] issues at most an auth check, leaves [ForcePull] alone and
    appends to the log. *)
Lemma auth_effect (client : docker.Client) (o : @BuildOptions Iaas) (evs : list Event) :
  let w1 := snd (runState (auth client) {| w_opts := o; w_events := evs |}) in
  ForcePull (w_opts w1) = ForcePull o
  /\ exists extra,
       w_events w1 = evs ++ extra
       /\ Forall (fun ev => exists a, ev_call ev = docker.CallAuthCheck a) extra.
Proof.
  cbn zeta. rewrite auth_run. unfold addressed.
  destruct (hasCredentials (Auth o)); cbn.
  - destruct (docker.AuthConfiguration.ServerAddress (Auth o) =? ""); cbn;
      destruct (docker.AuthCheck client _) as [status [e|]]; cbn;
      (split; [reflexivity|]); eexists; (split; [reflexivity|]);
      repeat constructor; eexists; reflexivity.
  - split; [reflexivity|]. exists []. rewrite app_nil_r. split; constructor.
Qed.

(** Auth checks are neither builds nor pulls. *)
Lemma auth_checks_only (extra : list (@Event Iaas)) :
  Forall (fun ev => exists a, ev_call ev = docker.CallAuthCheck a) extra ->
  pulls extra = []
  /\ forall b, ~ In (docker.CallBuildImage b) (map ev_call extra).
Proof.
  induction 1 as [|ev extra [a Ha] _ [IHp IHb]]; cbn.
  - split; [reflexivity | intros b []].
  - rewrite Ha. split; [exact IHp|].
    intros b [Hb|Hb]; [discriminate | exact (IHb b Hb)].
Qed.

(** The pulls of a log that ends with more events. *)
Lemma pulls_app (evs more : list (@Event Iaas)) :
  pulls (evs ++ more) = pulls evs ++ pulls more.
Proof. unfold pulls. apply flat_map_app. Qed.

(** The fallback on [resolve], from any world without pulls so far. *)
Lemma resolve_pull_fallback (client : docker.Client) (o : @BuildOptions Iaas)
    (evs : list Event) :
  ForcePull o = false ->
  pulls evs = [] ->
  let r := resolve parse client {| w_opts := o; w_events := evs |} in
  let Name := fst (fst (fst r)) in
  let err := snd (fst r) in
  let calls := map ev_call (w_events (snd r)) in
  let b := buildImageOptions o in
  let po := pullImageOptions parse Name in
  w_opts (snd r) = o
  /\ Name = GetImageName o
  /\ match snd (docker.BuildImage client b) with
     | None => pulls (w_events (snd r)) = [] /\ err = None
     | Some e =>
         if strings.Contains (Error e) "Cannot locate specified Dockerfile:"
         then pulls (w_events (snd r)) = [(po, Auth o)]
              /\ (exists pre,
                    calls = pre ++ [docker.CallBuildImage b;
                                    docker.CallPullImage po (Auth o)])
              /\ err = docker.PullImage client po (Auth o)
         else pulls (w_events (snd r)) = [] /\ err = Some e
     end.
Proof.
  intros Hforce Hnone. cbn zeta. unfold resolve. cbn -[pulls]. rewrite Hforce.
  unfold error in *.
  destruct (docker.BuildImage client (buildImageOptions o)) as [stdout [e|]]; cbn -[pulls].
  - destruct (strings.Contains (Error e) "Cannot locate specified Dockerfile:"); cbn -[pulls].
    + rewrite !pulls_app, Hnone, !map_app. cbn.
      split; [reflexivity|].
      destruct (docker.PullImage client _ _) eqn:Hpull; cbn -[pulls];
        (split; [reflexivity|]); (split; [reflexivity|]);
        (split; [exists (map ev_call evs); now rewrite <- app_assoc |
                reflexivity || (symmetry; exact Hpull)]).
    + rewrite pulls_app, Hnone. repeat split; reflexivity.
  - rewrite pulls_app, Hnone. repeat split; reflexivity.
Qed.

(** C3: [ForcePull] being unset, when the build call is issued: after a
    failure whose message contains [Cannot locate specified Dockerfile:]
    exactly one pull call follows it, for the name already resolved, and its
    answer is the result; after any other failure there is no pull call and
    the failure is the result; after a success there is no pull call. *)
Theorem FnImageBuild_pull_fallback (client : docker.Client) (opts : @BuildOptions Iaas) :
  ForcePull opts = false ->
  let r := run_build (FnImageBuild parse client) opts in
  let Name := fst (fst (fst r)) in
  let err := snd (fst r) in
  let o := w_opts (snd r) in
  let calls := map ev_call (w_events (snd r)) in
  let b := buildImageOptions o in
  let po := pullImageOptions parse Name in
  In (docker.CallBuildImage b) calls ->
  Name = GetImageName o
  /\ match snd (docker.BuildImage client b) with
     | None => pulls (w_events (snd r)) = [] /\ err = None
     | Some e =>
         if strings.Contains (Error e) "Cannot locate specified Dockerfile:"
         then pulls (w_events (snd r)) = [(po, Auth o)]
              /\ (exists pre,
                    calls = pre ++ [docker.CallBuildImage b;
                                    docker.CallPullImage po (Auth o)])
              /\ err = docker.PullImage client po (Auth o)
         else pulls (w_events (snd r)) = [] /\ err = Some e
     end.
Proof.
  intros Hforce. cbn zeta.
  unfold run_build. rewrite FnImageBuild_run.
  assert (Hd : ForcePull (defaults opts) = false).
  { rewrite <- Hforce. unfold defaults.
    destruct (Dockerfile opts =? ""); cbn;
      destruct ((ContextDir opts =? "") && (RemoteURI opts =? "")); reflexivity. }
  destruct (auth_effect client (defaults opts) []) as (Hkeep & extra & Hevs & Hchecks).
  destruct (auth_checks_only extra Hchecks) as [Hpulls Hbuilds].
  cbn zeta in Hkeep, Hevs. rewrite Hd in Hkeep. revert Hkeep Hevs.
  destruct (runState (auth client) _) as [[e|] [o1 evs1]]; cbn;
    intros Hkeep Hevs; subst evs1.
  - intros Hin. destruct (Hbuilds _ Hin).
  - intros _.
    destruct (resolve_pull_fallback client o1 extra Hkeep Hpulls) as (Ho & Hname & Hcases).
    cbn zeta in Ho, Hname, Hcases. rewrite Ho. split; [exact Hname | exact Hcases].
Qed.

End ImageResolverFacts.

(* ===================================================================== *)
(** ** [path.Clean] on paths that are already clean                      *)
(* ===================================================================== *)

Lemma chars_append (a b : string) :
  list_ascii_of_string (a ++ b)%string
  = list_ascii_of_string a ++ list_ascii_of_string b.
Proof. induction a as [|x a IH]; cbn; [reflexivity | now rewrite IH]. Qed.

Lemma append_empty_r (a : string) : (a ++ "")%string = a.
Proof. induction a as [|x a IH]; cbn; [reflexivity | now rewrite IH]. Qed.

(** The copy loop takes a slash-free element whole. *)
Lemma copyElem_plain (c t : string) (out : path.lazybuf) :
  ~ In "/"%char (list_ascii_of_string c) -> path.boundary t ->
  path.copyElem (c ++ t)%string out = (t, rev (list_ascii_of_string c) ++ out).
Proof.
  revert out. induction c as [|a c IH]; intros out Hno Ht; cbn.
  - destruct Ht as [->|[t' ->]]; reflexivity.
  - destruct (Ascii.eqb_spec a "/") as [->|Hne].
    + exfalso. apply Hno. now left.
    + rewrite IH; [|intros Hin; apply Hno; now right|exact Ht].
      now rewrite <- app_assoc.
Qed.

(** One iteration of the loop on a plain element: it is copied, after a
    slash unless the buffer is empty. *)
Lemma loop_plain_elem (fuel : nat) (c t : string) (out : path.lazybuf) (dotdot : nat) :
  path.plainElem c -> path.boundary t ->
  path.loop (S fuel) false (c ++ t)%string out dotdot =
  path.loop fuel false t
    (rev (list_ascii_of_string c)
     ++ match out with [] => [] | _ => "/"%char :: out end) dotdot.
Proof.
  intros (Hne & Hdot & Hdotdot & Hslash) Ht.
  pose proof (copyElem_plain c t) as Hcopy.
  destruct c as [|a c]; [contradiction|].
  assert (Ha : Ascii.eqb a "/" = false).
  { apply Ascii.eqb_neq. intros ->. apply Hslash. now left. }
  cbn [path.loop String.append String.length Nat.eqb String.get path.isByte].
  rewrite Ha.
  assert (Hnot2 : (path.isByte "." (Some a)
                   && ((String.length (c ++ t) =? 0)%nat
                       || path.isByte "/" (String.get 0 (c ++ t))))%bool = false).
  { cbn. destruct (Ascii.eqb_spec a ".") as [->|]; [|reflexivity].
    destruct c as [|b c]; [contradiction|]. cbn.
    apply Ascii.eqb_neq. intros ->. apply Hslash. right. now left. }
  assert (Hnot3 : (path.isByte "." (Some a) && path.isByte "." (String.get 0 (c ++ t))
                   && ((String.length (c ++ t) =? 1)%nat
                       || path.isByte "/" (String.get 1 (c ++ t))))%bool = false).
  { cbn. destruct (Ascii.eqb_spec a ".") as [->|]; [|reflexivity].
    destruct c as [|b c]; [contradiction|]. cbn.
    destruct (Ascii.eqb_spec b ".") as [->|]; [|reflexivity].
    destruct c as [|d c]; [contradiction|]. cbn.
    apply Ascii.eqb_neq. intros ->. apply Hslash. right. right. now left. }
  cbn [path.isByte] in Hnot2, Hnot3.
  rewrite Hnot2, Hnot3.
  cbn [negb andb orb].
  change (String a (c ++ t)%string) with (String a c ++ t)%string.
  destruct out as [|x out]; cbn [length Nat.eqb negb];
    rewrite Hcopy by assumption; reflexivity.
Qed.

(** With nothing left to read the loop is over. *)
Lemma loop_done (fuel : nat) (rooted : bool) (out : path.lazybuf) (dotdot : nat) :
  path.loop fuel rooted "" out dotdot = out.
Proof. destruct fuel; reflexivity. Qed.

(** The loop on a path of plain elements copies the path. *)
Lemma loop_plain (elems : list string) :
  Forall path.plainElem elems -> elems <> [] ->
  forall (fuel : nat) (out : path.lazybuf) (dotdot : nat),
    (2 * List.length elems - 1 <= fuel)%nat ->
    path.loop fuel false (String.concat "/" elems) out dotdot =
    rev (list_ascii_of_string (String.concat "/" elems))
    ++ match out with [] => [] | _ => "/"%char :: out end.
Proof.
  induction 1 as [|c rest Hc Hrest IH]; intros Hnil fuel out dotdot Hfuel;
    [contradiction|].
  destruct rest as [|c' rest].
  - cbn [String.concat]. destruct fuel as [|fuel]; [cbn in Hfuel; lia|].
    rewrite <- (append_empty_r c) at 1.
    rewrite loop_plain_elem by (assumption || now left).
    apply loop_done.
  - change (String.concat "/" (c :: c' :: rest))
      with (c ++ String "/" (String.concat "/" (c' :: rest)))%string.
    destruct fuel as [|[|fuel]]; [cbn in Hfuel; lia | cbn in Hfuel; lia |].
    rewrite loop_plain_elem by (assumption || (right; eexists; reflexivity)).
    cbn [path.loop String.length Nat.eqb String.get path.isByte path.skip].
    cbn [Ascii.eqb Bool.eqb andb].
    rewrite IH by (discriminate || (cbn [length] in *; lia)).
    rewrite chars_append. cbn [list_ascii_of_string].
    rewrite rev_app_distr. cbn [rev]. rewrite <- !app_assoc. cbn [app].
    destruct (rev (list_ascii_of_string c)) eqn:Hrev.
    + destruct Hc as (Hne & _). destruct c; [contradiction|].
      cbn in Hrev. destruct (rev (list_ascii_of_string c)); discriminate.
    + reflexivity.
Qed.

Lemma length_append (a b : string) :
  String.length (a ++ b) = (String.length a + String.length b)%nat.
Proof. induction a as [|x a IH]; cbn; [reflexivity | now rewrite IH]. Qed.

(** A path of [k] non-empty elements has at least [2k - 1] bytes, which is
    the number of iterations the loop makes on it: the fuel [Clean] gives
    is enough. *)
Lemma length_concat_plain (elems : list string) :
  Forall path.plainElem elems -> elems <> [] ->
  (2 * List.length elems - 1 <= String.length (String.concat "/" elems))%nat.
Proof.
  induction 1 as [|c rest Hc Hrest IH]; intros Hnil; [contradiction|].
  assert (Hlen : (1 <= String.length c)%nat).
  { destruct Hc as (Hne & _). destruct c; [contradiction | cbn; lia]. }
  destruct rest as [|c' rest].
  - cbn. lia.
  - change (String.concat "/" (c :: c' :: rest))
      with (c ++ String "/" (String.concat "/" (c' :: rest)))%string.
    rewrite length_append. cbn [String.length].
    assert (c' :: rest <> []) as Hrest' by discriminate.
    specialize (IH Hrest'). cbn [length] in *. lia.
Qed.

(** [Clean] returns a path of plain elements as it is. *)
Lemma Clean_plain (elems : list string) :
  Forall path.plainElem elems -> elems <> [] ->
  path.Clean (String.concat "/" elems) = String.concat "/" elems.
Proof.
  intros Hplain Hnil.
  pose proof (loop_plain elems Hplain Hnil
                (String.length (String.concat "/" elems)) [] 0
                (length_concat_plain elems Hplain Hnil)) as Hloop.
  assert (Hhead : exists a p, String.concat "/" elems = String a p
                              /\ Ascii.eqb a "/" = false).
  { destruct Hplain as [|c rest Hc _]; [contradiction|].
    destruct Hc as (Hne & _ & _ & Hslash).
    destruct c as [|a c]; [contradiction|].
    assert (Ha : Ascii.eqb a "/" = false).
    { apply Ascii.eqb_neq. intros ->. apply Hslash. now left. }
    destruct rest; cbn; eauto. }
  destruct Hhead as (a & p & Hp & Ha).
  assert (Hne : String.eqb (String.concat "/" elems) "" = false)
    by (rewrite Hp; reflexivity).
  assert (Hroot : path.isByte "/" (String.get 0 (String.concat "/" elems)) = false)
    by (rewrite Hp; exact Ha).
  assert (Hlen : (List.length (list_ascii_of_string (String.concat "/" elems)) =? 0)%nat
                 = false)
    by (rewrite Hp; reflexivity).
  unfold path.Clean. cbv zeta. rewrite Hne, Hroot, Hloop.
  rewrite app_nil_r, length_rev, Hlen, rev_involutive.
  apply string_of_list_ascii_of_string.
Qed.

(** [Join] of [gofn] and a name of plain elements is [gofn/<name>]. *)
Lemma Join_gofn_plain (elems : list string) :
  Forall path.plainElem elems -> elems <> [] ->
  path.Join ["gofn"; String.concat "/" elems]
  = ("gofn/" ++ String.concat "/" elems)%string.
Proof.
  intros Hplain Hnil.
  assert (Hgofn : path.plainElem "gofn").
  { repeat split; try discriminate.
    cbn. intros H; repeat (destruct H as [H|H]; [discriminate|]); exact H. }
  pose proof (Clean_plain ("gofn" :: elems) (Forall_cons _ Hgofn Hplain)) as Hclean.
  destruct elems as [|c rest]; [contradiction|].
  specialize (Hclean ltac:(discriminate)).
  destruct Hplain as [|c0 rest0 Hc _]; [contradiction|].
  change (path.Join ["gofn"; String.concat "/" (c0 :: rest0)])
    with (path.Clean (String.concat "/" ["gofn"; String.concat "/" (c0 :: rest0)])).
  exact Hclean.
Qed.

(** The copy loop never lengthens what is left of the path. *)
Lemma copyElem_length (p : string) (out : path.lazybuf) :
  (String.length (fst (path.copyElem p out)) <= String.length p)%nat.
Proof.
  revert out. induction p as [|a p IH]; intros out; cbn; [lia|].
  destruct (Ascii.eqb a "/"); cbn; [lia|]. specialize (IH (a :: out)). lia.
Qed.

Lemma skip_length (k : nat) (p : string) :
  (String.length (path.skip k p) <= String.length p - Nat.min k (String.length p))%nat.
Proof.
  revert p. induction k as [|k IH]; intros [|a p]; cbn; try lia.
  specialize (IH p). lia.
Qed.

(** Every iteration of the loop consumes a byte, so that any fuel of at
    least the length of the path gives the same buffer: the [fuel] of
    [Clean] never runs out. *)
Lemma loop_fuel (fuel1 : nat) :
  forall (fuel2 : nat) (rooted : bool) (p : string) (out : path.lazybuf) (dotdot : nat),
    (String.length p <= fuel1)%nat -> (String.length p <= fuel2)%nat ->
    path.loop fuel1 rooted p out dotdot = path.loop fuel2 rooted p out dotdot.
Proof.
  induction fuel1 as [|fuel1 IH]; intros fuel2 rooted p out dotdot H1 H2.
  - destruct p; [now rewrite !loop_done | cbn in H1; lia].
  - destruct fuel2 as [|fuel2].
    { destruct p; [now rewrite !loop_done | cbn in H2; lia]. }
    destruct p as [|a p]; [reflexivity|].
    cbn [String.length] in H1, H2.
    pose proof (skip_length 1 p) as Hs1.
    cbn [path.loop String.length Nat.eqb String.get path.isByte path.skip].
    destruct (Ascii.eqb a "/") eqn:Ha; [apply IH; lia|].
    destruct (_ && _)%bool; [apply IH; lia|].
    destruct (_ && _)%bool.
    + cbn [path.skip] in Hs1.
      destruct (dotdot <? _)%nat; [apply IH; lia|].
      destruct (negb rooted); apply IH; lia.
    + pose proof (copyElem_length p (a :: (if (rooted && negb (length out =? 1)%nat
                     || negb rooted && negb (length out =? 0)%nat)%bool
                  then "/"%char :: out else out))) as Hc.
      cbn [path.copyElem]. rewrite Ha.
      destruct (path.copyElem p _) as [p' out2]. cbn in Hc. apply IH; lia.
Qed.

(* ===================================================================== *)
(** ** Image names                                                       *)
(* ===================================================================== *)

(** C5: with [DoNotUsePrefixImageName] set, [GetImageName] returns the
    name unchanged; unset, it returns [path.Join("gofn", name)], which is
    [gofn/<name>] when the name is a non-empty sequence of elements
    separated by slashes, none of them empty, [.] or [..]. *)
Theorem GetImageName_prefix {Iaas : Type} (opts : @BuildOptions Iaas) :
  (DoNotUsePrefixImageName opts = true -> GetImageName opts = ImageName opts)
  /\ (DoNotUsePrefixImageName opts = false ->
      GetImageName opts = path.Join ["gofn"; ImageName opts]
      /\ forall elems,
           elems <> [] -> Forall path.plainElem elems ->
           ImageName opts = String.concat "/" elems ->
           GetImageName opts = ("gofn/" ++ ImageName opts)%string).
Proof.
  unfold GetImageName. split; intros ->; [reflexivity|].
  split; [reflexivity|].
  intros elems Hnil Hplain ->. now apply Join_gofn_plain.
Qed.

(* ===================================================================== *)
(** ** The statements on concrete engines                                *)
(* ===================================================================== *)

(** An element made of letters only is plain. *)
Lemma plainElem_library : path.plainElem "library".
Proof.
  repeat split; try discriminate.
  cbn. intros H; repeat (destruct H as [H|H]; [discriminate|]); exact H.
Qed.

Lemma plainElem_python : path.plainElem "python".
Proof.
  repeat split; try discriminate.
  cbn. intros H; repeat (destruct H as [H|H]; [discriminate|]); exact H.
Qed.

(** [GetImageName] for [library/python], with the prefix and with the
    prefix switched off. *)
Lemma GetImageName_prefix_witness :
  (DoNotUsePrefixImageName (optionsFor "library/python") = false
   /\ GetImageName (optionsFor "library/python") = "gofn/library/python")
  /\ (DoNotUsePrefixImageName (unprefixedOptionsFor "library/python") = true
      /\ GetImageName (unprefixedOptionsFor "library/python") = "library/python").
Proof.
  split; (split; [reflexivity|]).
  - apply (proj2 (proj2 (GetImageName_prefix (optionsFor "library/python")) eq_refl)
             ["library"; "python"]).
    + discriminate.
    + constructor; [apply plainElem_library|].
      constructor; [apply plainElem_python | constructor].
    + reflexivity.
  - apply (proj1 (GetImageName_prefix (unprefixedOptionsFor "library/python"))).
    reflexivity.
Defined.

(** The empty name and the name [../python] with prefixing on: the result
    is [gofn], without a slash, and [python], without the prefix. *)
Lemma GetImageName_not_gofn_slash_name :
  DoNotUsePrefixImageName (optionsFor "") = false
  /\ GetImageName (optionsFor "") = "gofn"
  /\ GetImageName (optionsFor "") <> ("gofn/" ++ ImageName (optionsFor ""))%string
  /\ DoNotUsePrefixImageName (optionsFor "../python") = false
  /\ GetImageName (optionsFor "../python") = "python"
  /\ GetImageName (optionsFor "../python")
     <> ("gofn/" ++ ImageName (optionsFor "../python"))%string.
Proof. repeat split; discriminate. Qed.

(** Three containers, two of them of gofn: the listing keeps those two, in
    order. *)
Lemma FnListContainers_only_prefixed_witness :
  let hostContainers :=
    [container "a1" "gofn/python"; container "b2" "nginx"; container "c3" "gofn/go"] in
  docker.ListContainers (listingClient hostContainers) listAll = (hostContainers, None)
  /\ fst (run (FnListContainers (listingClient hostContainers)))
     = ([container "a1" "gofn/python"; container "c3" "gofn/go"], None).
Proof.
  cbn zeta. split; [reflexivity|].
  apply (proj1 (FnListContainers_only_prefixed
                  (listingClient
                     [container "a1" "gofn/python"; container "b2" "nginx";
                      container "c3" "gofn/go"])
                  _ eq_refl)).
Defined.

(** A run that exits with code 0 and one that exits with code 3, log
    retrieval failing in both. *)
Lemma FnRun_exit_code_witness :
  fst (run (FnRun (runningClient None None 0 None "out" "err"
                     (Some (EngineError "logs: EOF"))) "4f2a" "in"))
  = Some (Some "out", Some "err", None)
  /\ fst (run (FnRun (runningClient None None 3 None "out" "err"
                        (Some (EngineError "logs: EOF"))) "4f2a" "in"))
     = Some (Some "out", Some "err", Some ErrContainerExecutionFailed).
Proof.
  split.
  - apply (proj1 (FnRun_exit_code
                    (runningClient None None 0 None "out" "err"
                       (Some (EngineError "logs: EOF")))
                    "4f2a" "in" 0 "out" "err" (Some (EngineError "logs: EOF"))
                    eq_refl eq_refl eq_refl eq_refl)).
    reflexivity.
  - apply (proj2 (FnRun_exit_code
                    (runningClient None None 3 None "out" "err"
                       (Some (EngineError "logs: EOF")))
                    "4f2a" "in" 3 "out" "err" (Some (EngineError "logs: EOF"))
                    eq_refl eq_refl eq_refl eq_refl)).
    discriminate.
Defined.

(** A start that fails, an attach that fails, and a run that reaches the
    wait stage. *)
Lemma FnRun_start_attach_failure_witness :
  let noStart := runningClient (Some (EngineError "no such container")) None 0 None
                   "out" "err" None in
  let noAttach := runningClient None (Some (EngineError "hijack failed")) 0 None
                    "out" "err" None in
  let fine := runningClient None None 0 None "out" "err" None in
  run (FnRun noStart "4f2a" "in")
  = (Some (None, None, Some (EngineError "no such container")),
     [docker.CallStartContainer "4f2a"])
  /\ run (FnRun noAttach "4f2a" "in")
     = (Some (None, None, Some (EngineError "hijack failed")),
        [docker.CallStartContainer "4f2a";
         docker.CallAttachToContainerNonBlocking
           (attachOptions "4f2a" (Some "in") false false)])
  /\ In (docker.CallWaitContainer "4f2a") (snd (run (FnRun fine "4f2a" "in"))).
Proof.
  cbn zeta. split; [|split].
  - apply (proj1 (FnRun_start_attach_failure
                    (runningClient (Some (EngineError "no such container")) None 0 None
                       "out" "err" None) "4f2a" "in")).
    reflexivity.
  - apply (proj1 (proj2 (FnRun_start_attach_failure
                    (runningClient None (Some (EngineError "hijack failed")) 0 None
                       "out" "err" None) "4f2a" "in"))); reflexivity.
  - apply (proj2 (proj2 (FnRun_start_attach_failure
                    (runningClient None None 0 None "out" "err" None) "4f2a" "in"))
             (Some "out") (Some "err") None).
    + reflexivity.
    + left. discriminate.
Defined.

(** Pulling [python:3.9], [python@sha256:ab12] and [python], parsed by the
    library's [ParseRepositoryTag]. *)
Lemma FnPull_repository_and_tag_witness :
  pulls (w_events (snd (run_build (FnPull docker.ParseRepositoryTag quietClient)
                          (optionsFor "python:3.9"))))
  = [({| docker.PullImageOptions.Repository := "gofn/python";
         docker.PullImageOptions.Tag := "3.9" |}, noAuth)]
  /\ pulls (w_events (snd (run_build (FnPull docker.ParseRepositoryTag quietClient)
                             (optionsFor "python@sha256:ab12"))))
     = [({| docker.PullImageOptions.Repository := "gofn/python@sha256:ab12";
            docker.PullImageOptions.Tag := "" |}, noAuth)]
  /\ pulls (w_events (snd (run_build (FnPull docker.ParseRepositoryTag quietClient)
                             (optionsFor "python"))))
     = [({| docker.PullImageOptions.Repository := "gofn/python";
            docker.PullImageOptions.Tag := "latest" |}, noAuth)].
Proof.
  split; [|split].
  - apply (proj1 (FnPull_repository_and_tag docker.ParseRepositoryTag quietClient
                    (optionsFor "python:3.9"))).
    discriminate.
  - apply (proj1 (proj2 (FnPull_repository_and_tag docker.ParseRepositoryTag quietClient
                           (optionsFor "python@sha256:ab12")))).
    + reflexivity.
    + cbn. do 11 right. left. reflexivity.
  - apply (proj2 (proj2 (FnPull_repository_and_tag docker.ParseRepositoryTag quietClient
                           (optionsFor "python")))).
    + reflexivity.
    + cbn. intros H. repeat (destruct H as [H|H]; [discriminate|]). exact H.
Defined.

(** Building [python] with nothing else set, on an engine that accepts the
    build. *)
Lemma FnImageBuild_context_default_witness :
  let w := snd (run_build (FnImageBuild docker.ParseRepositoryTag quietClient)
                  (optionsFor "python")) in
  (ContextDir (optionsFor "python") = "" /\ RemoteURI (optionsFor "python") = "")
  /\ ContextDir (w_opts w) = "./"
  /\ Forall (fun ev => ContextDir (ev_opts ev) = "./") (w_events w).
Proof.
  cbn zeta. split; [split; reflexivity|].
  pose proof (FnImageBuild_context_default docker.ParseRepositoryTag quietClient
                (optionsFor "python") eq_refl eq_refl) as H.
  cbn zeta in H. split; [exact (proj1 H) | exact (proj1 (proj2 H))].
Defined.

(** Building [python] on an engine that cannot find the Dockerfile and on
    one whose build fails otherwise. *)
Lemma FnImageBuild_pull_fallback_witness :
  let missing := buildingClient ""
                   (Some (EngineError "Cannot locate specified Dockerfile: Dockerfile"))
                   None in
  let broken := buildingClient "" (Some (EngineError "no space left on device")) None in
  pulls (w_events (snd (run_build (FnImageBuild docker.ParseRepositoryTag missing)
                          (optionsFor "python"))))
  = [({| docker.PullImageOptions.Repository := "gofn/python";
         docker.PullImageOptions.Tag := "latest" |}, noAuth)]
  /\ pulls (w_events (snd (run_build (FnImageBuild docker.ParseRepositoryTag broken)
                             (optionsFor "python"))))
     = [].
Proof.
  cbn zeta. split.
  - pose proof (FnImageBuild_pull_fallback docker.ParseRepositoryTag
                  (buildingClient ""
                     (Some (EngineError "Cannot locate specified Dockerfile: Dockerfile"))
                     None)
                  (optionsFor "python") eq_refl (or_introl eq_refl)) as H.
    exact (proj1 (proj2 H)).
  - pose proof (FnImageBuild_pull_fallback docker.ParseRepositoryTag
                  (buildingClient "" (Some (EngineError "no space left on device")) None)
                  (optionsFor "python") eq_refl (or_introl eq_refl)) as H.
    exact (proj1 (proj2 H)).
Defined.

(* ===================================================================== *)
(** ** More on image resolution                                          *)
(* ===================================================================== *)

Section ImageResolverMore.

Context {Iaas : Type}.
(** The library's [ParseRepositoryTag], as before. *)
Variable parse : string -> string * string.

(** The defaults leave [Auth] and [ForcePull] alone. *)
Lemma Auth_defaults (opts : @BuildOptions Iaas) : Auth (defaults opts) = Auth opts.
Proof.
  unfold defaults. destruct (Dockerfile opts =? ""); cbn;
    destruct ((ContextDir opts =? "") && (RemoteURI opts =? "")); reflexivity.
Qed.

Lemma ForcePull_defaults (opts : @BuildOptions Iaas) :
  ForcePull (defaults opts) = ForcePull opts.
Proof.
  unfold defaults. destruct (Dockerfile opts =? ""); cbn;
    destruct ((ContextDir opts =? "") && (RemoteURI opts =? "")); reflexivity.
Qed.

(** After the defaults there is a Dockerfile name and a context or a
    remote. *)
Lemma defaults_filled (opts : @BuildOptions Iaas) :
  Dockerfile (defaults opts) <> ""
  /\ (ContextDir (defaults opts) <> "" \/ RemoteURI (defaults opts) <> "").
Proof.
  unfold defaults.
  destruct (String.eqb_spec (Dockerfile opts) ""); cbn;
    destruct (String.eqb_spec (ContextDir opts) ""); cbn;
    destruct (String.eqb_spec (RemoteURI opts) ""); cbn;
    (split; [congruence || discriminate | (left; congruence || discriminate) || (right; congruence)]).
Qed.

(** [resolve] leaves the options alone. *)
Lemma resolve_opts (client : docker.Client) (o : @BuildOptions Iaas) (evs : list Event) :
  w_opts (snd (resolve parse client {| w_opts := o; w_events := evs |})) = o.
Proof.
  unfold resolve. cbn. destruct (ForcePull o); cbn; [reflexivity|].
  destruct (docker.BuildImage client (buildImageOptions o)) as [stdout [e|]]; cbn;
    [|reflexivity].
  destruct (strings.Contains (Error e) _); reflexivity.
Qed.

(** The calls [resolve] adds to the log. *)
Lemma resolve_calls (client : docker.Client) (o : @BuildOptions Iaas) (evs : list Event) :
  let pull := docker.CallPullImage (pullImageOptions parse (GetImageName o)) (Auth o) in
  let build := docker.CallBuildImage (buildImageOptions o) in
  callsOf (w_events (snd (resolve parse client {| w_opts := o; w_events := evs |}))) =
  callsOf evs ++
  (if ForcePull o then [pull]
   else match snd (docker.BuildImage client (buildImageOptions o)) with
        | None => [build]
        | Some e =>
            if strings.Contains (Error e) "Cannot locate specified Dockerfile:"
            then [build; pull] else [build]
        end).
Proof.
  unfold resolve, callsOf. cbn. destruct (ForcePull o); cbn.
  - now rewrite map_app.
  - destruct (docker.BuildImage client (buildImageOptions o)) as [stdout [e|]]; cbn.
    + destruct (strings.Contains (Error e) _); cbn;
        rewrite !map_app, <- ?app_assoc; reflexivity.
    + now rewrite map_app.
Qed.

(** What [resolve] returns. *)
Lemma resolve_result (client : docker.Client) (o : @BuildOptions Iaas) (evs : list Event) :
  let pulled := docker.PullImage client (pullImageOptions parse (GetImageName o)) (Auth o) in
  fst (resolve parse client {| w_opts := o; w_events := evs |}) =
  if ForcePull o then (GetImageName o, None, pulled)
  else match docker.BuildImage client (buildImageOptions o) with
       | (stdout, None) => (GetImageName o, Some stdout, None)
       | (stdout, Some e) =>
           if strings.Contains (Error e) "Cannot locate specified Dockerfile:"
           then match pulled with
                | Some _ => (GetImageName o, None, pulled)
                | None => (GetImageName o, Some stdout, None)
                end
           else (GetImageName o, None, Some e)
       end.
Proof.
  unfold resolve. cbn. destruct (ForcePull o); cbn; [reflexivity|].
  destruct (docker.BuildImage client (buildImageOptions o)) as [stdout [e|]]; cbn;
    [|reflexivity].
  destruct (strings.Contains (Error e) _); reflexivity.
Qed.

(** The options [FnImageBuild] hands to [resolve] once [auth] has
    succeeded: defaulted, and with credentials also addressed and carrying
    the token of the check. *)
Lemma FnImageBuild_authorized (client : docker.Client) (opts : @BuildOptions Iaas) :
  let o1 := addressed (defaults opts) in
  run_build (FnImageBuild parse client) opts =
  if hasCredentials (Auth opts) then
    match docker.AuthCheck client (Auth (addressed opts)) with
    | (_, Some e) =>
        (("", None, Some e),
         {| w_opts := o1;
            w_events := [{| ev_call := docker.CallAuthCheck (Auth (addressed opts));
                            ev_opts := o1 |}] |})
    | (status, None) =>
        resolve parse client
          {| w_opts := set_Auth (set_IdentityToken
                                   (docker.AuthStatus.IdentityToken status)
                                   (Auth (addressed opts))) o1;
             w_events := [{| ev_call := docker.CallAuthCheck (Auth (addressed opts));
                             ev_opts := o1 |}] |}
    end
  else resolve parse client {| w_opts := defaults opts; w_events := [] |}.
Proof.
  cbv zeta. unfold run_build. rewrite FnImageBuild_run, auth_run. cbv zeta.
  rewrite Auth_defaults, Auth_addressed_defaults.
  destruct (hasCredentials (Auth opts)); [|reflexivity].
  destruct (docker.AuthCheck client (Auth (addressed opts))) as [status [e|]];
    reflexivity.
Qed.

(** After [addressed] there is a server address; nothing else of the
    options moves. *)
Lemma addressed_server (opts : @BuildOptions Iaas) :
  docker.AuthConfiguration.ServerAddress (Auth (addressed opts)) <> "".
Proof.
  unfold addressed.
  destruct (String.eqb_spec (docker.AuthConfiguration.ServerAddress (Auth opts)) "");
    cbn; [discriminate | assumption].
Qed.

Lemma addressed_frame (opts : @BuildOptions Iaas) :
  ForcePull (addressed opts) = ForcePull opts
  /\ Dockerfile (addressed opts) = Dockerfile opts
  /\ ContextDir (addressed opts) = ContextDir opts
  /\ RemoteURI (addressed opts) = RemoteURI opts.
Proof.
  unfold addressed.
  destruct (docker.AuthConfiguration.ServerAddress (Auth opts) =? "");
    repeat split; reflexivity.
Qed.

(** X1: with [ForcePull] set, [FnImageBuild] never issues a build call and
    returns a nil buffer; once [auth] has let it through (no credentials,
    or a successful check) the last and only pull call is the one for the
    resolved name, and the result is the name and that call's answer. *)
Theorem FnImageBuild_force_pull (client : docker.Client) (opts : @BuildOptions Iaas) :
  ForcePull opts = true ->
  let r := run_build (FnImageBuild parse client) opts in
  let o := w_opts (snd r) in
  let calls := callsOf (w_events (snd r)) in
  let po := pullImageOptions parse (GetImageName o) in
  (forall b, ~ In (docker.CallBuildImage b) calls)
  /\ snd (fst (fst r)) = None
  /\ (hasCredentials (Auth opts) = false ->
        calls = [docker.CallPullImage po (Auth o)]
        /\ fst r = (GetImageName o, None, docker.PullImage client po (Auth o)))
  /\ (hasCredentials (Auth opts) = true ->
      snd (docker.AuthCheck client (Auth (addressed opts))) = None ->
        calls = [docker.CallAuthCheck (Auth (addressed opts));
                 docker.CallPullImage po (Auth o)]
        /\ fst r = (GetImageName o, None, docker.PullImage client po (Auth o))).
Proof.
  intros Hforce. cbv zeta. rewrite FnImageBuild_authorized. cbv zeta.
  destruct (addressed_frame (defaults opts)) as (Hfa & _).
  rewrite ForcePull_defaults, Hforce in Hfa.
  destruct (hasCredentials (Auth opts)).
  - destruct (docker.AuthCheck client (Auth (addressed opts))) as [status [e|]].
    + cbn. split; [intros b [Hb|[]]; discriminate|].
      split; [reflexivity|]. split; discriminate.
    + rewrite resolve_opts, resolve_calls, resolve_result. cbn. rewrite Hfa.
      split; [intros b [Hb|[Hb|[]]]; discriminate|].
      split; [reflexivity|]. split; [discriminate|].
      intros _ _. split; reflexivity.
  - rewrite resolve_opts, resolve_calls, resolve_result.
    rewrite ForcePull_defaults, Hforce. cbn.
    split; [intros b [Hb|[]]; discriminate|].
    split; [reflexivity|]. split; [|discriminate].
    intros _. split; reflexivity.
Qed.

(** X2: when the options carry credentials and the auth check fails,
    [FnImageBuild] returns an empty name, a nil buffer and that error, and
    the auth check is the only engine call: nothing is built or pulled. *)
Theorem FnImageBuild_auth_failure (client : docker.Client) (opts : @BuildOptions Iaas)
    (status : docker.AuthStatus) (e : error_value) :
  hasCredentials (Auth opts) = true ->
  docker.AuthCheck client (Auth (addressed opts)) = (status, Some e) ->
  let r := run_build (FnImageBuild parse client) opts in
  fst r = ("", None, Some e)
  /\ callsOf (w_events (snd r)) = [docker.CallAuthCheck (Auth (addressed opts))].
Proof.
  intros Hcred Hcheck. cbv zeta.
  rewrite FnImageBuild_authorized. cbv zeta. rewrite Hcred, Hcheck.
  split; reflexivity.
Qed.

(** X3: [FnImageBuild] issues an auth check exactly when the options carry
    credentials; it is then the first call, the only auth check, and it is
    made with a server address. *)
Theorem FnImageBuild_auth_check (client : docker.Client) (opts : @BuildOptions Iaas) :
  let calls := callsOf (w_events (snd (run_build (FnImageBuild parse client) opts))) in
  (hasCredentials (Auth opts) = false ->
     forall a, ~ In (docker.CallAuthCheck a) calls)
  /\ (hasCredentials (Auth opts) = true ->
      exists rest,
        calls = docker.CallAuthCheck (Auth (addressed opts)) :: rest
        /\ (forall a, ~ In (docker.CallAuthCheck a) rest)
        /\ docker.AuthConfiguration.ServerAddress (Auth (addressed opts)) <> "").
Proof.
  cbv zeta. rewrite FnImageBuild_authorized. cbv zeta.
  assert (Hrest : forall (client : docker.Client) (o : @BuildOptions Iaas) a,
            ~ In (docker.CallAuthCheck a)
                (if ForcePull o
                 then [docker.CallPullImage (pullImageOptions parse (GetImageName o)) (Auth o)]
                 else match snd (docker.BuildImage client (buildImageOptions o)) with
                      | None => [docker.CallBuildImage (buildImageOptions o)]
                      | Some e =>
                          if strings.Contains (Error e) "Cannot locate specified Dockerfile:"
                          then [docker.CallBuildImage (buildImageOptions o);
                                docker.CallPullImage
                                  (pullImageOptions parse (GetImageName o)) (Auth o)]
                          else [docker.CallBuildImage (buildImageOptions o)]
                      end)).
  { intros c o a. destruct (ForcePull o).
    - intros [H|[]]; discriminate.
    - destruct (snd (docker.BuildImage c (buildImageOptions o))) as [e|].
      + destruct (strings.Contains (Error e) _).
        * intros [H|[H|[]]]; discriminate.
        * intros [H|[]]; discriminate.
      + intros [H|[]]; discriminate. }
  destruct (hasCredentials (Auth opts)).
  - split; [discriminate|]. intros _.
    destruct (docker.AuthCheck client (Auth (addressed opts))) as [status [e|]].
    + exists []. cbn. split; [reflexivity|]. split; [intros a []|].
      apply addressed_server.
    + rewrite resolve_calls. cbv zeta. cbn [callsOf map ev_call app].
      eexists. split; [reflexivity|]. split; [apply Hrest | apply addressed_server].
  - split; [|discriminate]. intros _ a.
    rewrite resolve_calls. cbv zeta. cbn [callsOf map app]. apply Hrest.
Qed.

(** The options [FnImageBuild] ends with, whatever path it takes. *)
Lemma FnImageBuild_final (client : docker.Client) (opts : @BuildOptions Iaas) :
  let o1 := addressed (defaults opts) in
  w_opts (snd (run_build (FnImageBuild parse client) opts)) =
  if hasCredentials (Auth opts) then
    match docker.AuthCheck client (Auth (addressed opts)) with
    | (_, Some _) => o1
    | (status, None) =>
        set_Auth (set_IdentityToken (docker.AuthStatus.IdentityToken status)
                    (Auth (addressed opts))) o1
    end
  else defaults opts.
Proof.
  cbv zeta. rewrite FnImageBuild_authorized. cbv zeta.
  destruct (hasCredentials (Auth opts)); [|apply resolve_opts].
  destruct (docker.AuthCheck client (Auth (addressed opts))) as [status [e|]];
    [reflexivity | apply resolve_opts].
Qed.

(** A build call is the one for the final options. *)
Lemma FnImageBuild_build_call (client : docker.Client) (opts : @BuildOptions Iaas)
    (b : docker.BuildImageOptions) :
  let w := snd (run_build (FnImageBuild parse client) opts) in
  In (docker.CallBuildImage b) (callsOf (w_events w)) ->
  b = buildImageOptions (w_opts w).
Proof.
  cbv zeta. rewrite FnImageBuild_authorized. cbv zeta.
  assert (Hrest : forall (o : @BuildOptions Iaas) pre,
            (forall c, In c pre -> exists a, c = docker.CallAuthCheck a) ->
            In (docker.CallBuildImage b)
               (pre ++
                if ForcePull o
                then [docker.CallPullImage (pullImageOptions parse (GetImageName o)) (Auth o)]
                else match snd (docker.BuildImage client (buildImageOptions o)) with
                     | None => [docker.CallBuildImage (buildImageOptions o)]
                     | Some e =>
                         if strings.Contains (Error e) "Cannot locate specified Dockerfile:"
                         then [docker.CallBuildImage (buildImageOptions o);
                               docker.CallPullImage
                                 (pullImageOptions parse (GetImageName o)) (Auth o)]
                         else [docker.CallBuildImage (buildImageOptions o)]
                     end) ->
            b = buildImageOptions o).
  { intros o pre Hpre Hin. apply in_app_or in Hin as [Hin|Hin].
    { destruct (Hpre _ Hin) as [a Ha]. discriminate. }
    destruct (ForcePull o).
    - destruct Hin as [H|[]]; discriminate.
    - destruct (snd (docker.BuildImage client (buildImageOptions o))) as [e|].
      + destruct (strings.Contains (Error e) _).
        * destruct Hin as [H|[H|[]]]; [now injection H | discriminate].
        * destruct Hin as [H|[]]. now injection H.
      + destruct Hin as [H|[]]. now injection H. }
  destruct (hasCredentials (Auth opts)).
  - destruct (docker.AuthCheck client (Auth (addressed opts))) as [status [e|]].
    + cbn. intros [H|[]]. discriminate.
    + rewrite resolve_opts, resolve_calls. cbv zeta. apply Hrest.
      intros c [<-|[]]. eexists. reflexivity.
  - rewrite resolve_opts, resolve_calls. cbv zeta. apply Hrest. intros c [].
Qed.

(** X4: whatever options it is given, [FnImageBuild] leaves them with a
    Dockerfile name and with a context directory or a remote URI, and it
    never issues a build call without a Dockerfile name or with neither a
    context directory nor a remote. *)
Theorem FnImageBuild_options_filled (client : docker.Client) (opts : @BuildOptions Iaas) :
  let w := snd (run_build (FnImageBuild parse client) opts) in
  (Dockerfile (w_opts w) <> ""
   /\ (ContextDir (w_opts w) <> "" \/ RemoteURI (w_opts w) <> ""))
  /\ forall b, In (docker.CallBuildImage b) (callsOf (w_events w)) ->
       docker.BuildImageOptions.Dockerfile b <> ""
       /\ (docker.BuildImageOptions.ContextDir b <> ""
           \/ docker.BuildImageOptions.Remote b <> "").
Proof.
  cbv zeta.
  assert (Hfinal : Dockerfile (w_opts (snd (run_build (FnImageBuild parse client) opts))) <> ""
                   /\ (ContextDir (w_opts (snd (run_build (FnImageBuild parse client) opts))) <> ""
                       \/ RemoteURI (w_opts (snd (run_build (FnImageBuild parse client) opts))) <> "")).
  { rewrite FnImageBuild_final. cbv zeta.
    destruct (defaults_filled opts) as [Hd Hc].
    destruct (addressed_frame (defaults opts)) as (_ & Had & Hac & Har).
    destruct (hasCredentials (Auth opts)); [|split; assumption].
    destruct (docker.AuthCheck client (Auth (addressed opts))) as [status [e|]]; cbn;
      rewrite Had, Hac, Har; split; assumption. }
  split; [exact Hfinal|].
  intros b Hin. apply FnImageBuild_build_call in Hin. subst b. exact Hfinal.
Qed.

(** X5: [FnImageBuild] returns a buffer only together with a nil error and
    only when [ForcePull] is unset, and the buffer then holds what the
    build call wrote; with [ForcePull] unset every success returns a
    buffer. *)
Theorem FnImageBuild_stdout (client : docker.Client) (opts : @BuildOptions Iaas) :
  let r := run_build (FnImageBuild parse client) opts in
  let Stdout := snd (fst (fst r)) in
  let err := snd (fst r) in
  (forall out, Stdout = Some out ->
     err = None /\ ForcePull opts = false
     /\ out = fst (docker.BuildImage client (buildImageOptions (w_opts (snd r)))))
  /\ (ForcePull opts = false -> err = None -> Stdout <> None).
Proof.
  cbv zeta. rewrite FnImageBuild_authorized. cbv zeta.
  assert (Hres : forall (o : @BuildOptions Iaas) evs,
            ForcePull o = ForcePull opts ->
            let r := resolve parse client {| w_opts := o; w_events := evs |} in
            (forall out, snd (fst (fst r)) = Some out ->
               snd (fst r) = None /\ ForcePull opts = false
               /\ out = fst (docker.BuildImage client (buildImageOptions (w_opts (snd r)))))
            /\ (ForcePull opts = false -> snd (fst r) = None -> snd (fst (fst r)) <> None)).
  { intros o evs Hf. cbv zeta. rewrite resolve_opts, resolve_result. cbv zeta.
    rewrite Hf. destruct (ForcePull opts); cbn.
    - split; [intros out H; discriminate | discriminate].
    - destruct (docker.BuildImage client (buildImageOptions o)) as [stdout [e|]]; cbn.
      + destruct (strings.Contains (Error e) _); cbn.
        * destruct (docker.PullImage client _ _); cbn.
          -- split; [intros out H; discriminate | intros _ H; discriminate].
          -- split; [intros out [= <-]; repeat split | intros _ _; discriminate].
        * split; [intros out H; discriminate | intros _ H; discriminate].
      + split; [intros out [= <-]; repeat split | intros _ _; discriminate]. }
  destruct (addressed_frame (defaults opts)) as (Hfa & _).
  rewrite ForcePull_defaults in Hfa.
  destruct (hasCredentials (Auth opts)).
  - destruct (docker.AuthCheck client (Auth (addressed opts))) as [status [e|]].
    + cbn. split; [intros out H; discriminate | intros _ H; discriminate].
    + apply Hres. exact Hfa.
  - apply Hres. apply ForcePull_defaults.
Qed.

(** A pull call is the one for the final options. *)
Lemma FnImageBuild_pull_call (client : docker.Client) (opts : @BuildOptions Iaas)
    (po : docker.PullImageOptions) (a : docker.AuthConfiguration) :
  let w := snd (run_build (FnImageBuild parse client) opts) in
  In (docker.CallPullImage po a) (callsOf (w_events w)) ->
  po = pullImageOptions parse (GetImageName (w_opts w)) /\ a = Auth (w_opts w).
Proof.
  cbv zeta. rewrite FnImageBuild_authorized. cbv zeta.
  assert (Hrest : forall (o : @BuildOptions Iaas) pre,
            (forall c, In c pre -> exists a, c = docker.CallAuthCheck a) ->
            In (docker.CallPullImage po a)
               (pre ++
                if ForcePull o
                then [docker.CallPullImage (pullImageOptions parse (GetImageName o)) (Auth o)]
                else match snd (docker.BuildImage client (buildImageOptions o)) with
                     | None => [docker.CallBuildImage (buildImageOptions o)]
                     | Some e =>
                         if strings.Contains (Error e) "Cannot locate specified Dockerfile:"
                         then [docker.CallBuildImage (buildImageOptions o);
                               docker.CallPullImage
                                 (pullImageOptions parse (GetImageName o)) (Auth o)]
                         else [docker.CallBuildImage (buildImageOptions o)]
                     end) ->
            po = pullImageOptions parse (GetImageName o) /\ a = Auth o).
  { intros o pre Hpre Hin. apply in_app_or in Hin as [Hin|Hin].
    { destruct (Hpre _ Hin) as [a' Ha]. discriminate. }
    destruct (ForcePull o).
    - destruct Hin as [H|[]]. injection H as <- <-. split; reflexivity.
    - destruct (snd (docker.BuildImage client (buildImageOptions o))) as [e|].
      + destruct (strings.Contains (Error e) _).
        * destruct Hin as [H|[H|[]]]; [discriminate|].
          injection H as <- <-. split; reflexivity.
        * destruct Hin as [H|[]]. discriminate.
      + destruct Hin as [H|[]]. discriminate. }
  destruct (hasCredentials (Auth opts)).
  - destruct (docker.AuthCheck client (Auth (addressed opts))) as [status [e|]].
    + cbn. intros [H|[]]. discriminate.
    + rewrite resolve_opts, resolve_calls. cbv zeta. apply Hrest.
      intros c [<-|[]]. eexists. reflexivity.
  - rewrite resolve_opts, resolve_calls. cbv zeta. apply Hrest. intros c [].
Qed.

(** X6: every build call and every pull call of [FnImageBuild] carries the
    [Auth] the options end with; after a successful auth check that [Auth]
    holds the identity token of the check and a server address, so that
    the token obtained is attached to the build and to the pull. *)
Theorem FnImageBuild_calls_auth (client : docker.Client) (opts : @BuildOptions Iaas) :
  let w := snd (run_build (FnImageBuild parse client) opts) in
  let calls := callsOf (w_events w) in
  (forall b, In (docker.CallBuildImage b) calls ->
     docker.BuildImageOptions.Auth b = Auth (w_opts w))
  /\ (forall po a, In (docker.CallPullImage po a) calls -> a = Auth (w_opts w))
  /\ (forall status,
        hasCredentials (Auth opts) = true ->
        docker.AuthCheck client (Auth (addressed opts)) = (status, None) ->
        docker.AuthConfiguration.IdentityToken (Auth (w_opts w))
        = docker.AuthStatus.IdentityToken status
        /\ docker.AuthConfiguration.ServerAddress (Auth (w_opts w)) <> "").
Proof.
  cbv zeta. split; [|split].
  - intros b Hin. apply FnImageBuild_build_call in Hin. now subst b.
  - intros po a Hin. now apply FnImageBuild_pull_call in Hin.
  - intros status Hcred Hcheck. rewrite FnImageBuild_final. cbv zeta.
    rewrite Hcred, Hcheck. cbn. split; [reflexivity | apply addressed_server].
Qed.

(** X7: [parseDockerImage] answers an empty tag only for a name that
    contains ['@'], and the repository is then the whole name: [FnPull]
    never sends an empty tag for a name without a digest. *)
Theorem parseDockerImage_empty_tag (image : string) :
  snd (parseDockerImage parse image) = "" ->
  In "@"%char (list_ascii_of_string image)
  /\ fst (parseDockerImage parse image) = image.
Proof.
  unfold parseDockerImage, strings.IndexRune.
  destruct (parse image) as [repo tag].
  destruct (String.eqb_spec tag "") as [->|Hne]; cbn.
  - pose proof (IndexByte_In image "@") as Hat.
    destruct (-1 <? strings.IndexByte image "@")%Z; cbn.
    + intros _. split; [now apply Hat | reflexivity].
    + discriminate.
  - intros Htag. contradiction.
Qed.

End ImageResolverMore.

(* ===================================================================== *)
(** ** Names, listings and lookups together                              *)
(* ===================================================================== *)

(** [Clean] never answers the empty string. *)
Lemma Clean_nonempty (p : string) : path.Clean p <> "".
Proof.
  unfold path.Clean. destruct (String.eqb p ""); [discriminate|]. cbv zeta.
  match goal with
  | |- (if (List.length ?o =? 0)%nat then _ else _) <> _ => destruct o as [|c out] eqn:Hout
  end; cbn [length Nat.eqb]; [discriminate|].
  cbn [rev]. destruct (rev out); cbn; discriminate.
Qed.

(** X8: with prefixing on, [GetImageName] never returns an empty name,
    whatever the target name is. *)
Theorem GetImageName_nonempty {Iaas : Type} (opts : @BuildOptions Iaas) :
  DoNotUsePrefixImageName opts = false -> GetImageName opts <> "".
Proof.
  unfold GetImageName. intros ->.
  change (path.Join ["gofn"; ImageName opts])
    with (path.Clean (String.concat "/" ["gofn"; ImageName opts])).
  apply Clean_nonempty.
Qed.

(** [FnFindContainer] in closed form, failed listings included. *)
Lemma FnFindContainer_full (client : docker.Client) (imageName : string) :
  run (FnFindContainer client imageName) =
  (match docker.ListContainers client listAll with
   | (_, Some e) => (docker.APIContainers.zero, Some e)
   | (containers, None) =>
       findByImage containers
         (if strings.HasPrefix imageName "gofn" then imageName
          else ("gofn/" ++ imageName)%string)
   end, [docker.CallListContainers listAll]).
Proof.
  unfold run, FnFindContainer. cbn.
  destruct (docker.ListContainers client listAll) as [cs [e|]]; cbn; [reflexivity|].
  destruct (strings.HasPrefix imageName "gofn"); reflexivity.
Qed.

(** [FnFindContainerByID] in closed form. *)
Lemma FnFindContainerByID_full (client : docker.Client) (ID : string) :
  run (FnFindContainerByID client ID) =
  (match docker.ListContainers client listAll with
   | (_, Some e) => (docker.APIContainers.zero, Some e)
   | (containers, None) => findByID containers ID
   end, [docker.CallListContainers listAll]).
Proof.
  unfold run, FnFindContainerByID. cbn.
  destruct (docker.ListContainers client listAll) as [cs [e|]]; reflexivity.
Qed.

(** A successful [findByImage] returns the first container with the
    image. *)
Lemma findByImage_first (containers : list docker.APIContainers) (imageName : string)
    (v : docker.APIContainers) :
  findByImage containers imageName = (v, None) <->
  exists pre post,
    containers = pre ++ v :: post
    /\ docker.APIContainers.Image v = imageName
    /\ forall w, In w pre -> docker.APIContainers.Image w <> imageName.
Proof.
  induction containers as [|c rest IH]; cbn.
  - split; [discriminate|]. intros (pre & post & H & _). destruct pre; discriminate.
  - destruct (String.eqb_spec (docker.APIContainers.Image c) imageName) as [Heq|Hne].
    + split.
      * intros [= <-]. exists [], rest. repeat split; [exact Heq | intros w []].
      * intros (pre & post & Hsplit & Himg & Hpre). destruct pre as [|p pre].
        -- cbn in Hsplit. now injection Hsplit as ->.
        -- cbn in Hsplit. injection Hsplit as <- _.
           exfalso. apply (Hpre c); [now left | exact Heq].
    + rewrite IH. split.
      * intros (pre & post & -> & Himg & Hpre). exists (c :: pre), post.
        repeat split; [exact Himg|]. intros w [<-|Hw]; [exact Hne | now apply Hpre].
      * intros (pre & post & Hsplit & Himg & Hpre). destruct pre as [|p pre].
        -- cbn in Hsplit. injection Hsplit as -> _. contradiction.
        -- cbn in Hsplit. injection Hsplit as -> ->. exists pre, post.
           repeat split; [exact Himg|]. intros w Hw. apply Hpre. now right.
Qed.

(** The same for [findByID]. *)
Lemma findByID_first (containers : list docker.APIContainers) (ID : string)
    (v : docker.APIContainers) :
  findByID containers ID = (v, None) <->
  exists pre post,
    containers = pre ++ v :: post
    /\ docker.APIContainers.ID v = ID
    /\ forall w, In w pre -> docker.APIContainers.ID w <> ID.
Proof.
  induction containers as [|c rest IH]; cbn.
  - split; [discriminate|]. intros (pre & post & H & _). destruct pre; discriminate.
  - destruct (String.eqb_spec (docker.APIContainers.ID c) ID) as [Heq|Hne].
    + split.
      * intros [= <-]. exists [], rest. repeat split; [exact Heq | intros w []].
      * intros (pre & post & Hsplit & Hid & Hpre). destruct pre as [|p pre].
        -- cbn in Hsplit. now injection Hsplit as ->.
        -- cbn in Hsplit. injection Hsplit as <- _.
           exfalso. apply (Hpre c); [now left | exact Heq].
    + rewrite IH. split.
      * intros (pre & post & -> & Hid & Hpre). exists (c :: pre), post.
        repeat split; [exact Hid|]. intros w [<-|Hw]; [exact Hne | now apply Hpre].
      * intros (pre & post & Hsplit & Hid & Hpre). destruct pre as [|p pre].
        -- cbn in Hsplit. injection Hsplit as -> _. contradiction.
        -- cbn in Hsplit. injection Hsplit as -> ->. exists pre, post.
           repeat split; [exact Hid|]. intros w Hw. apply Hpre. now right.
Qed.

(** [findByID] answers not-found, with the zero container, exactly when no
    container has the ID. *)
Lemma findByID_none (containers : list docker.APIContainers) (ID : string) :
  (forall w, In w containers -> docker.APIContainers.ID w <> ID) <->
  findByID containers ID = (docker.APIContainers.zero, Some ErrContainerNotFound).
Proof.
  induction containers as [|c rest IH]; cbn.
  - split; [reflexivity | intros _ w []].
  - destruct (String.eqb_spec (docker.APIContainers.ID c) ID) as [Heq|Hne].
    + split; [|discriminate]. intros H. exfalso. apply (H c); [now left | exact Heq].
    + rewrite <- IH. split.
      * intros H w Hw. apply H. now right.
      * intros H w [<-|Hw]; [exact Hne | now apply H].
Qed.

(** The same for [findByImage]. *)
Lemma findByImage_none (containers : list docker.APIContainers) (imageName : string) :
  (forall w, In w containers -> docker.APIContainers.Image w <> imageName) <->
  findByImage containers imageName
  = (docker.APIContainers.zero, Some ErrContainerNotFound).
Proof.
  induction containers as [|c rest IH]; cbn.
  - split; [reflexivity | intros _ w []].
  - destruct (String.eqb_spec (docker.APIContainers.Image c) imageName) as [Heq|Hne].
    + split; [|discriminate]. intros H. exfalso. apply (H c); [now left | exact Heq].
    + rewrite <- IH. split.
      * intros H w Hw. apply H. now right.
      * intros H w [<-|Hw]; [exact Hne | now apply H].
Qed.

(** Either search ends in a container and nil or in not-found. *)
Lemma findByImage_outcome (containers : list docker.APIContainers) (imageName : string) :
  (exists v, findByImage containers imageName = (v, None))
  \/ findByImage containers imageName
     = (docker.APIContainers.zero, Some ErrContainerNotFound).
Proof.
  induction containers as [|c rest IH]; cbn; [now right|].
  destruct (docker.APIContainers.Image c =? imageName); [left; eauto | exact IH].
Qed.

Lemma findByID_outcome (containers : list docker.APIContainers) (ID : string) :
  (exists v, findByID containers ID = (v, None))
  \/ findByID containers ID = (docker.APIContainers.zero, Some ErrContainerNotFound).
Proof.
  induction containers as [|c rest IH]; cbn; [now right|].
  destruct (docker.APIContainers.ID c =? ID); [left; eauto | exact IH].
Qed.

(** X9: a container whose image is the name [GetImageName] resolves, for
    a target name made of plain elements with prefixing on, is among the
    containers [FnListContainers] returns whenever the engine lists it. *)
Theorem FnListContainers_lists_resolved {Iaas : Type}
    (client : docker.Client) (hostContainers : list docker.APIContainers)
    (opts : @BuildOptions Iaas) (elems : list string) (c : docker.APIContainers) :
  docker.ListContainers client listAll = (hostContainers, None) ->
  DoNotUsePrefixImageName opts = false ->
  elems <> [] -> Forall path.plainElem elems ->
  ImageName opts = String.concat "/" elems ->
  In c hostContainers ->
  docker.APIContainers.Image c = GetImageName opts ->
  In c (fst (fst (run (FnListContainers client)))).
Proof.
  intros Hlist Hprefix Hnil Hplain Hname Hin Himg.
  rewrite FnListContainers_run, Hlist. cbn.
  apply filter_In. split; [exact Hin|].
  rewrite Himg. unfold GetImageName. rewrite Hprefix, Hname.
  rewrite Join_gofn_plain by assumption.
  apply HasPrefix_iff. eexists. reflexivity.
Qed.

(** X10: with the prefix switched off and a target name that does not
    start with [gofn/], a container of the resolved image is never among
    the containers [FnListContainers] returns. *)
Theorem FnListContainers_misses_unprefixed {Iaas : Type}
    (client : docker.Client) (opts : @BuildOptions Iaas) (c : docker.APIContainers) :
  DoNotUsePrefixImageName opts = true ->
  strings.HasPrefix (ImageName opts) "gofn/" = false ->
  docker.APIContainers.Image c = GetImageName opts ->
  ~ In c (fst (fst (run (FnListContainers client)))).
Proof.
  intros Hoff Hbare Himg. rewrite FnListContainers_run.
  unfold GetImageName in Himg. rewrite Hoff in Himg.
  destruct (docker.ListContainers client listAll) as [cs [e|]]; cbn; [intros []|].
  rewrite filter_In. intros [_ Hp]. rewrite Himg, Hbare in Hp. discriminate.
Qed.

(** X11: for a target name of plain elements that does not start with
    [gofn], with prefixing on, looking a container up by the target name
    and by the name [GetImageName] resolves is the same run: same call,
    same container, same error. *)
Theorem FnFindContainer_bare_or_resolved {Iaas : Type}
    (client : docker.Client) (opts : @BuildOptions Iaas) (elems : list string) :
  DoNotUsePrefixImageName opts = false ->
  elems <> [] -> Forall path.plainElem elems ->
  ImageName opts = String.concat "/" elems ->
  strings.HasPrefix (ImageName opts) "gofn" = false ->
  run (FnFindContainer client (ImageName opts))
  = run (FnFindContainer client (GetImageName opts)).
Proof.
  intros Hprefix Hnil Hplain Hname Hbare.
  rewrite !FnFindContainer_full, Hbare.
  unfold GetImageName. rewrite Hprefix, Hname.
  rewrite Join_gofn_plain by assumption. rewrite <- Hname.
  assert (Hp : strings.HasPrefix ("gofn/" ++ ImageName opts) "gofn" = true).
  { apply HasPrefix_iff. exists (String "/" (ImageName opts)). reflexivity. }
  rewrite Hp. reflexivity.
Qed.

(** X12: when [FnFindContainer] succeeds, the container is the first one
    of the listing with its image; that image is the name given or
    [gofn/] followed by it, and it always starts with [gofn]. *)
Theorem FnFindContainer_found
    (client : docker.Client) (imageName : string)
    (containers : list docker.APIContainers) (v : docker.APIContainers) :
  docker.ListContainers client listAll = (containers, None) ->
  fst (run (FnFindContainer client imageName)) = (v, None) ->
  (exists pre post,
     containers = pre ++ v :: post
     /\ forall w, In w pre ->
          docker.APIContainers.Image w <> docker.APIContainers.Image v)
  /\ strings.HasPrefix (docker.APIContainers.Image v) "gofn" = true
  /\ (docker.APIContainers.Image v = imageName
      \/ docker.APIContainers.Image v = ("gofn/" ++ imageName)%string).
Proof.
  intros Hlist. rewrite FnFindContainer_full, Hlist. cbn [fst].
  intros Hfound. apply findByImage_first in Hfound as (pre & post & Hsplit & Himg & Hpre).
  split; [exists pre, post; split; [exact Hsplit | now rewrite Himg]|].
  rewrite Himg. destruct (strings.HasPrefix imageName "gofn") eqn:Hp.
  - split; [exact Hp | now left].
  - split; [|now right]. apply HasPrefix_iff. exists (String "/" imageName). reflexivity.
Qed.

(** X13: on a listing, [FnFindContainer] answers not-found, with the zero
    container, exactly when no listed container has the image it compares
    with: the name itself when it starts with [gofn], [gofn/<name>]
    otherwise. *)
Theorem FnFindContainer_not_found
    (client : docker.Client) (imageName : string)
    (containers : list docker.APIContainers) :
  docker.ListContainers client listAll = (containers, None) ->
  fst (run (FnFindContainer client imageName))
  = (docker.APIContainers.zero, Some ErrContainerNotFound)
  <-> forall w, In w containers ->
        docker.APIContainers.Image w
        <> (if strings.HasPrefix imageName "gofn" then imageName
            else ("gofn/" ++ imageName)%string).
Proof.
  intros Hlist. rewrite FnFindContainer_full, Hlist. cbn [fst].
  symmetry. apply findByImage_none.
Qed.

(** X14: a container that [FnFindContainer] finds, for a name that starts
    with [gofn/] or does not start with [gofn], is one of the containers
    [FnListContainers] returns on the same listing. *)
Theorem FnFindContainer_found_is_listed
    (client : docker.Client) (imageName : string)
    (containers : list docker.APIContainers) (v : docker.APIContainers) :
  docker.ListContainers client listAll = (containers, None) ->
  strings.HasPrefix imageName "gofn/" = true
  \/ strings.HasPrefix imageName "gofn" = false ->
  fst (run (FnFindContainer client imageName)) = (v, None) ->
  In v (fst (fst (run (FnListContainers client)))).
Proof.
  intros Hlist Hname. rewrite FnFindContainer_full, FnListContainers_run, Hlist.
  cbn [fst]. intros Hfound.
  apply findByImage_first in Hfound as (pre & post & -> & Himg & _).
  apply filter_In. split; [apply in_or_app; right; now left|].
  rewrite Himg. destruct Hname as [Hslash|Hbare].
  - now rewrite (HasPrefix_gofn_slash _ Hslash).
  - rewrite Hbare. apply HasPrefix_iff. eexists. reflexivity.
Qed.

(** X15: when the engine fails to list the containers, [FnListContainers]
    returns no container and [FnFindContainer] and [FnFindContainerByID]
    the zero container, each with the engine's error and after that one
    call; whatever came with the error is dropped. *)
Theorem listing_failure
    (client : docker.Client) (containers : list docker.APIContainers)
    (e : error_value) (name : string) :
  docker.ListContainers client listAll = (containers, Some e) ->
  run (FnListContainers client) = (([], Some e), [docker.CallListContainers listAll])
  /\ run (FnFindContainer client name)
     = ((docker.APIContainers.zero, Some e), [docker.CallListContainers listAll])
  /\ run (FnFindContainerByID client name)
     = ((docker.APIContainers.zero, Some e), [docker.CallListContainers listAll]).
Proof.
  intros Hlist.
  rewrite FnListContainers_run, FnFindContainer_full, FnFindContainerByID_full, Hlist.
  repeat split.
Qed.

(** X16: on a listing, [FnFindContainerByID] returns a container with a
    nil error exactly when that container is the first of the listing with
    the ID. *)
Theorem FnFindContainerByID_found
    (client : docker.Client) (ID : string)
    (containers : list docker.APIContainers) (v : docker.APIContainers) :
  docker.ListContainers client listAll = (containers, None) ->
  fst (run (FnFindContainerByID client ID)) = (v, None)
  <-> exists pre post,
        containers = pre ++ v :: post
        /\ docker.APIContainers.ID v = ID
        /\ forall w, In w pre -> docker.APIContainers.ID w <> ID.
Proof.
  intros Hlist. rewrite FnFindContainerByID_full, Hlist. cbn [fst].
  apply findByID_first.
Qed.

(** X17: on a listing, [FnFindContainerByID] answers not-found, with the
    zero container, exactly when no listed container has the ID; it has
    no other outcome than that one and a found container. *)
Theorem FnFindContainerByID_not_found
    (client : docker.Client) (ID : string)
    (containers : list docker.APIContainers) :
  docker.ListContainers client listAll = (containers, None) ->
  (fst (run (FnFindContainerByID client ID))
   = (docker.APIContainers.zero, Some ErrContainerNotFound)
   <-> forall w, In w containers -> docker.APIContainers.ID w <> ID)
  /\ ((exists v, fst (run (FnFindContainerByID client ID)) = (v, None))
      \/ fst (run (FnFindContainerByID client ID))
         = (docker.APIContainers.zero, Some ErrContainerNotFound)).
Proof.
  intros Hlist. rewrite FnFindContainerByID_full, Hlist. cbn [fst].
  split; [symmetry; apply findByID_none | apply findByID_outcome].
Qed.

(** [FnListContainers] on a listing that holds only gofn containers
    returns the listing. *)
Lemma filter_filter_same {A : Type} (keep : A -> bool) (l : list A) :
  filter keep (filter keep l) = filter keep l.
Proof.
  induction l as [|x l IH]; cbn; [reflexivity|].
  destruct (keep x) eqn:Hx; cbn; rewrite ?Hx, IH; reflexivity.
Qed.

(** X18: listing is idempotent: an engine that lists exactly the
    containers [FnListContainers] returned gets all of them back, in the
    same order. *)
Theorem FnListContainers_idempotent
    (client client' : docker.Client) (hostContainers : list docker.APIContainers) :
  docker.ListContainers client listAll = (hostContainers, None) ->
  docker.ListContainers client' listAll
  = (fst (fst (run (FnListContainers client))), None) ->
  fst (run (FnListContainers client')) = fst (run (FnListContainers client)).
Proof.
  intros Hlist. rewrite !FnListContainers_run, Hlist. cbn [fst].
  intros ->. now rewrite filter_filter_same.
Qed.

(* ===================================================================== *)
(** ** Images and creation                                               *)
(* ===================================================================== *)

(** X19: [FnFindImage] asks for the images filtered by the name and
    succeeds exactly when the engine answers a non-empty listing without
    error, with the first image of it; an empty listing is
    [ErrImageNotFound], an engine error is returned as it is, and in both
    cases the image is the zero value. *)
Theorem FnFindImage_first (client : dockerx.Methods) (imageName : string) :
  let o := {| dockerx.ListImagesOptions.Filter := imageName |} in
  snd (xrun (FnFindImage client imageName)) = [dockerx.CallListImages o]
  /\ (forall image,
        fst (xrun (FnFindImage client imageName)) = (image, None)
        <-> exists rest, dockerx.ListImages client o = (image :: rest, None))
  /\ (dockerx.ListImages client o = ([], None) ->
        fst (xrun (FnFindImage client imageName))
        = (dockerx.APIImages.zero, Some ErrImageNotFound))
  /\ (forall imgs e,
        dockerx.ListImages client o = (imgs, Some e) ->
        fst (xrun (FnFindImage client imageName))
        = (dockerx.APIImages.zero, Some e)).
Proof.
  cbv zeta. unfold xrun, FnFindImage. cbn.
  destruct (dockerx.ListImages client _) as [[|i rest] [e|]]; cbn.
  all: split; [reflexivity|].
  all: split; [intros image; split;
               [intros H; inversion H; subst; eauto
               |intros [rest' H]; inversion H; subst; reflexivity]|].
  all: split; [intros H; inversion H; reflexivity|].
  all: intros imgs e' H; inversion H; subst; reflexivity.
Qed.

(** X20: when no UUID can be generated [FnContainer] returns a nil
    container and that error without calling the engine; otherwise it
    issues one creation call, for a container named [gofn-] followed by
    the UUID, with standard input open and closed after one write and the
    image, command, environment, volumes and runtime of the options, and
    returns the engine's answer. *)
Theorem FnContainer_create
    (client : dockerx.Methods) (uid : string) (err : error) (opts : ContainerOptions) :
  (forall e, err = Some e ->
     xrun (FnContainer client (uid, err) opts) = ((None, Some e), []))
  /\ (err = None ->
      exists o,
        xrun (FnContainer client (uid, err) opts)
        = (dockerx.CreateContainer client o, [dockerx.CallCreateContainer o])
        /\ dockerx.CreateContainerOptions.Name o = ("gofn-" ++ uid)%string
        /\ strings.HasPrefix (dockerx.CreateContainerOptions.Name o) "gofn-" = true
        /\ dockerx.CreateContainerOptions.Config o
           = {| dockerx.Config.Image := Image opts;
                dockerx.Config.Cmd := Cmd opts;
                dockerx.Config.Env := Env opts;
                dockerx.Config.StdinOnce := true;
                dockerx.Config.OpenStdin := true |}
        /\ dockerx.CreateContainerOptions.HostConfig o
           = {| dockerx.HostConfig.Binds := Volumes opts;
                dockerx.HostConfig.Runtime := Runtime opts |}).
Proof.
  split.
  - intros e ->. reflexivity.
  - intros ->. eexists. split; [reflexivity|]. cbn.
    repeat split. apply HasPrefix_iff. eexists. reflexivity.
Qed.

(* ===================================================================== *)
(** ** More on waiting and running                                       *)
(* ===================================================================== *)

(** X21: the channel of [FnWaitContainer] always offers a first value, so
    that a first receive never blocks for ever: the wait error if there is
    one, else the failure sentinel for a non-zero code, else nil.  The
    goroutine sends at most three values and the last one is always nil. *)
Theorem FnWaitContainer_first_and_last (client : docker.Client) (containerID : string) :
  let errs := fst (run (FnWaitContainer client containerID)) in
  (exists rest,
     recv errs =
     Some (match docker.WaitContainer client containerID with
           | (_, Some e) => Some e
           | (code, None) =>
               if (code =? 0)%Z then None else Some ErrContainerExecutionFailed
           end, rest))
  /\ (1 <= List.length errs <= 3)%nat
  /\ last errs (Some ErrContainerNotFound) = None.
Proof.
  cbv zeta. rewrite FnWaitContainer_run.
  destruct (docker.WaitContainer client containerID) as [code [e|]]; cbn;
    destruct (code =? 0)%Z; cbn; (split; [eexists; reflexivity|]);
    (split; [lia | reflexivity]).
Qed.

(** X22: when start and attach succeed and the wait call itself fails,
    [FnRun] returns the wait error, whatever the exit code reported with
    it, and still fetches the logs: both buffers are returned with what
    log retrieval wrote. *)
Theorem FnRun_wait_error
    (client : docker.Client) (containerID input : string)
    (code : Z) (e : error_value) (out errout : string) (lerr : error) :
  docker.StartContainer client containerID = None ->
  snd (docker.AttachToContainerNonBlocking client
         (attachOptions containerID (Some input) false false)) = None ->
  docker.WaitContainer client containerID = (code, Some e) ->
  docker.Logs client (logsOptions containerID) = (out, errout, lerr) ->
  run (FnRun client containerID input) =
  (Some (Some out, Some errout, Some e),
   [docker.CallStartContainer containerID;
    docker.CallAttachToContainerNonBlocking
      (attachOptions containerID (Some input) false false);
    docker.CallWaitContainer containerID;
    docker.CallLogs (logsOptions containerID)]).
Proof.
  intros Hstart Hattach Hwait Hlogs.
  rewrite FnRun_run, Hstart. cbn zeta. rewrite Hattach, Hwait, Hlogs. reflexivity.
Qed.


(* ===================================================================== *)
(** ** The provider's settings                                           *)
(* ===================================================================== *)

Section ProviderFacts.

Context {ClientT HostT CtxT : Type}.
Variables KeysDir PublicKeyName PrivateKeyName : string.
Variable filepath_Join : list string -> string.
Variable Getenv : string -> string.

Local Notation Provider := (@digitalocean.Digitalocean ClientT HostT CtxT).

(** The public getter in closed form. *)
Lemma GetSSHPublicKeyPath_run (do : Provider) :
  runState (digitalocean.GetSSHPublicKeyPath KeysDir PublicKeyName filepath_Join Getenv) do =
  if negb (Getenv "GOFN_SSH_PUBLICKEY_PATH" =? "")
  then (Getenv "GOFN_SSH_PUBLICKEY_PATH", do)
  else if negb (digitalocean.sshPublicKeyPath do =? "")
       then (digitalocean.sshPublicKeyPath do, do)
       else (filepath_Join [KeysDir; PublicKeyName],
             digitalocean.set_sshPublicKeyPath
               (filepath_Join [KeysDir; PublicKeyName]) do).
Proof.
  unfold digitalocean.GetSSHPublicKeyPath.
  destruct (Getenv "GOFN_SSH_PUBLICKEY_PATH" =? ""); cbn; [|reflexivity].
  destruct (digitalocean.sshPublicKeyPath do =? ""); reflexivity.
Qed.

(** The private getter in closed form. *)
Lemma GetSSHPrivateKeyPath_run (do : Provider) :
  runState (digitalocean.GetSSHPrivateKeyPath KeysDir PrivateKeyName filepath_Join Getenv) do =
  if negb (Getenv "GOFN_SSH_PRIVATEKEY_PATH" =? "")
  then (Getenv "GOFN_SSH_PRIVATEKEY_PATH", do)
  else if negb (digitalocean.sshPrivateKeyPath do =? "")
       then (digitalocean.sshPrivateKeyPath do, do)
       else (filepath_Join [KeysDir; PrivateKeyName],
             digitalocean.set_sshPrivateKeyPath
               (filepath_Join [KeysDir; PrivateKeyName]) do).
Proof.
  unfold digitalocean.GetSSHPrivateKeyPath.
  destruct (Getenv "GOFN_SSH_PRIVATEKEY_PATH" =? ""); cbn; [|reflexivity].
  destruct (digitalocean.sshPrivateKeyPath do =? ""); reflexivity.
Qed.

(** X24: when the environment variable of a key path is set, the getter
    returns its value whatever path was set on the provider, and leaves
    the provider as it is. *)
Theorem GetSSHKeyPath_environment_first (do : Provider) :
  (Getenv "GOFN_SSH_PUBLICKEY_PATH" <> "" ->
     runState (digitalocean.GetSSHPublicKeyPath KeysDir PublicKeyName filepath_Join Getenv) do = (Getenv "GOFN_SSH_PUBLICKEY_PATH", do))
  /\ (Getenv "GOFN_SSH_PRIVATEKEY_PATH" <> "" ->
     runState (digitalocean.GetSSHPrivateKeyPath KeysDir PrivateKeyName filepath_Join Getenv) do = (Getenv "GOFN_SSH_PRIVATEKEY_PATH", do)).
Proof.
  rewrite GetSSHPublicKeyPath_run, GetSSHPrivateKeyPath_run.
  split; intros Hset.
  - destruct (String.eqb_spec (Getenv "GOFN_SSH_PUBLICKEY_PATH") "");
      [contradiction | reflexivity].
  - destruct (String.eqb_spec (Getenv "GOFN_SSH_PRIVATEKEY_PATH") "");
      [contradiction | reflexivity].
Qed.

(** X25: with the environment variable unset, a non-empty path that was
    set is the path the getter returns, and the getter changes nothing. *)
Theorem SetSSHKeyPath_then_get (do : Provider) (p : string) :
  p <> "" ->
  (Getenv "GOFN_SSH_PUBLICKEY_PATH" = "" ->
     runState (digitalocean.SetSSHPublicKeyPath p;; (digitalocean.GetSSHPublicKeyPath KeysDir PublicKeyName filepath_Join Getenv)) do
     = (p, digitalocean.set_sshPublicKeyPath p do))
  /\ (Getenv "GOFN_SSH_PRIVATEKEY_PATH" = "" ->
     runState (digitalocean.SetSSHPrivateKeyPath p;; (digitalocean.GetSSHPrivateKeyPath KeysDir PrivateKeyName filepath_Join Getenv)) do
     = (p, digitalocean.set_sshPrivateKeyPath p do)).
Proof.
  intros Hp.
  assert (Hpb : (p =? "") = false) by now apply String.eqb_neq.
  split; intros Henv.
  - change (runState (digitalocean.SetSSHPublicKeyPath p;; (digitalocean.GetSSHPublicKeyPath KeysDir PublicKeyName filepath_Join Getenv)) do)
      with (runState (digitalocean.GetSSHPublicKeyPath KeysDir PublicKeyName filepath_Join Getenv) (digitalocean.set_sshPublicKeyPath p do)).
    rewrite GetSSHPublicKeyPath_run, Henv. cbn. now rewrite Hpb.
  - change (runState (digitalocean.SetSSHPrivateKeyPath p;; (digitalocean.GetSSHPrivateKeyPath KeysDir PrivateKeyName filepath_Join Getenv)) do)
      with (runState (digitalocean.GetSSHPrivateKeyPath KeysDir PrivateKeyName filepath_Join Getenv) (digitalocean.set_sshPrivateKeyPath p do)).
    rewrite GetSSHPrivateKeyPath_run, Henv. cbn. now rewrite Hpb.
Qed.

(** X26: in an unchanged environment a getter called again returns the
    same path and changes nothing more: only the first call can store the
    default path. *)
Theorem GetSSHKeyPath_stable (do : Provider) :
  runState (digitalocean.GetSSHPublicKeyPath KeysDir PublicKeyName filepath_Join Getenv) (snd (runState (digitalocean.GetSSHPublicKeyPath KeysDir PublicKeyName filepath_Join Getenv) do)) = runState (digitalocean.GetSSHPublicKeyPath KeysDir PublicKeyName filepath_Join Getenv) do
  /\ runState (digitalocean.GetSSHPrivateKeyPath KeysDir PrivateKeyName filepath_Join Getenv) (snd (runState (digitalocean.GetSSHPrivateKeyPath KeysDir PrivateKeyName filepath_Join Getenv) do)) = runState (digitalocean.GetSSHPrivateKeyPath KeysDir PrivateKeyName filepath_Join Getenv) do.
Proof.
  rewrite !GetSSHPublicKeyPath_run, !GetSSHPrivateKeyPath_run. split.
  - destruct (Getenv "GOFN_SSH_PUBLICKEY_PATH" =? ""); cbn; [|reflexivity].
    destruct (digitalocean.sshPublicKeyPath do =? "") eqn:Hset; cbn.
    + destruct (filepath_Join [KeysDir; PublicKeyName] =? ""); reflexivity.
    + now rewrite Hset.
  - destruct (Getenv "GOFN_SSH_PRIVATEKEY_PATH" =? ""); cbn; [|reflexivity].
    destruct (digitalocean.sshPrivateKeyPath do =? "") eqn:Hset; cbn.
    + destruct (filepath_Join [KeysDir; PrivateKeyName] =? ""); reflexivity.
    + now rewrite Hset.
Qed.


(** X28: with the environment variable unset, a provider whose path is
    empty (never set, or set to the empty string) gets the default path,
    the join of the keys directory and the key name, and keeps it. *)
Theorem GetSSHKeyPath_default (do : Provider) :
  (Getenv "GOFN_SSH_PUBLICKEY_PATH" = "" ->
     runState (digitalocean.SetSSHPublicKeyPath "";; (digitalocean.GetSSHPublicKeyPath KeysDir PublicKeyName filepath_Join Getenv)) do
     = (filepath_Join [KeysDir; PublicKeyName],
        digitalocean.set_sshPublicKeyPath (filepath_Join [KeysDir; PublicKeyName]) do)
     /\ (digitalocean.sshPublicKeyPath do = "" ->
         runState (digitalocean.GetSSHPublicKeyPath KeysDir PublicKeyName filepath_Join Getenv) do
         = (filepath_Join [KeysDir; PublicKeyName],
            digitalocean.set_sshPublicKeyPath
              (filepath_Join [KeysDir; PublicKeyName]) do)))
  /\ (Getenv "GOFN_SSH_PRIVATEKEY_PATH" = "" ->
     runState (digitalocean.SetSSHPrivateKeyPath "";; (digitalocean.GetSSHPrivateKeyPath KeysDir PrivateKeyName filepath_Join Getenv)) do
     = (filepath_Join [KeysDir; PrivateKeyName],
        digitalocean.set_sshPrivateKeyPath (filepath_Join [KeysDir; PrivateKeyName]) do)
     /\ (digitalocean.sshPrivateKeyPath do = "" ->
         runState (digitalocean.GetSSHPrivateKeyPath KeysDir PrivateKeyName filepath_Join Getenv) do
         = (filepath_Join [KeysDir; PrivateKeyName],
            digitalocean.set_sshPrivateKeyPath
              (filepath_Join [KeysDir; PrivateKeyName]) do))).
Proof.
  split; intros Henv; split.
  - change (runState (digitalocean.SetSSHPublicKeyPath "";; (digitalocean.GetSSHPublicKeyPath KeysDir PublicKeyName filepath_Join Getenv)) do)
      with (runState (digitalocean.GetSSHPublicKeyPath KeysDir PublicKeyName filepath_Join Getenv) (digitalocean.set_sshPublicKeyPath "" do)).
    rewrite GetSSHPublicKeyPath_run, Henv. reflexivity.
  - intros Hunset. rewrite GetSSHPublicKeyPath_run, Henv, Hunset. reflexivity.
  - change (runState (digitalocean.SetSSHPrivateKeyPath "";; (digitalocean.GetSSHPrivateKeyPath KeysDir PrivateKeyName filepath_Join Getenv)) do)
      with (runState (digitalocean.GetSSHPrivateKeyPath KeysDir PrivateKeyName filepath_Join Getenv) (digitalocean.set_sshPrivateKeyPath "" do)).
    rewrite GetSSHPrivateKeyPath_run, Henv. reflexivity.
  - intros Hunset. rewrite GetSSHPrivateKeyPath_run, Henv, Hunset. reflexivity.
Qed.

(** X29: [GetRegion], [GetSize] and [GetImageSlug] never return an empty
    string: they return the field when it is set and the default when it
    is not. *)
Theorem provider_settings_never_empty (do : Provider) :
  (digitalocean.GetRegion do <> ""
   /\ digitalocean.GetSize do <> ""
   /\ digitalocean.GetImageSlug do <> "")
  /\ (digitalocean.Region do <> "" -> digitalocean.GetRegion do = digitalocean.Region do)
  /\ (digitalocean.Size do <> "" -> digitalocean.GetSize do = digitalocean.Size do)
  /\ (digitalocean.ImageSlug do <> "" ->
      digitalocean.GetImageSlug do = digitalocean.ImageSlug do)
  /\ (digitalocean.Region do = "" -> digitalocean.GetRegion do = "nyc3")
  /\ (digitalocean.Size do = "" -> digitalocean.GetSize do = "1gb")
  /\ (digitalocean.ImageSlug do = "" ->
      digitalocean.GetImageSlug do = "ubuntu-16-04-x64").
Proof.
  unfold digitalocean.GetRegion, digitalocean.GetSize, digitalocean.GetImageSlug.
  destruct (String.eqb_spec (digitalocean.Region do) "") as [Hr|Hr];
    destruct (String.eqb_spec (digitalocean.Size do) "") as [Hs|Hs];
    destruct (String.eqb_spec (digitalocean.ImageSlug do) "") as [Hi|Hi];
    repeat split; intros; (discriminate || congruence || assumption).
Qed.

End ProviderFacts.

(* ===================================================================== *)
(** ** The further statements on concrete engines and providers          *)
(* ===================================================================== *)

(** A forced pull of [python] without credentials. *)
Lemma FnImageBuild_force_pull_witness :
  ForcePull (forcedOptionsFor "python") = true
  /\ callsOf (w_events (snd (run_build (FnImageBuild docker.ParseRepositoryTag quietClient)
                               (forcedOptionsFor "python"))))
     = [docker.CallPullImage
          {| docker.PullImageOptions.Repository := "gofn/python";
             docker.PullImageOptions.Tag := "latest" |} noAuth].
Proof.
  split; [reflexivity|].
  exact (proj1 (proj1 (proj2 (proj2
           (FnImageBuild_force_pull docker.ParseRepositoryTag quietClient
              (forcedOptionsFor "python") eq_refl))) eq_refl)).
Defined.

(** A build with credentials that the registry rejects. *)
Lemma FnImageBuild_auth_failure_witness :
  let client := authClient ({| docker.AuthStatus.Status := "";
                               docker.AuthStatus.IdentityToken := "" |},
                            Some (EngineError "unauthorized")) in
  let opts := set_Auth userAuth (optionsFor "python") in
  hasCredentials (Auth opts) = true
  /\ fst (run_build (FnImageBuild docker.ParseRepositoryTag client) opts)
     = ("", None, Some (EngineError "unauthorized")).
Proof.
  cbv zeta. split; [reflexivity|].
  exact (proj1 (FnImageBuild_auth_failure docker.ParseRepositoryTag
                  (authClient ({| docker.AuthStatus.Status := "";
                                  docker.AuthStatus.IdentityToken := "" |},
                               Some (EngineError "unauthorized")))
                  (set_Auth userAuth (optionsFor "python")) _ _ eq_refl eq_refl)).
Defined.

(** Builds without and with credentials. *)
Lemma FnImageBuild_auth_check_witness :
  (forall a,
     ~ In (docker.CallAuthCheck a)
          (callsOf (w_events (snd (run_build
                                     (FnImageBuild docker.ParseRepositoryTag quietClient)
                                     (optionsFor "python"))))))
  /\ exists rest,
       callsOf (w_events (snd (run_build
                                 (FnImageBuild docker.ParseRepositoryTag quietClient)
                                 (set_Auth userAuth (optionsFor "python")))))
       = docker.CallAuthCheck
           (Auth (addressed (set_Auth userAuth (optionsFor "python")))) :: rest.
Proof.
  split.
  - exact (proj1 (FnImageBuild_auth_check docker.ParseRepositoryTag quietClient
                    (optionsFor "python")) eq_refl).
  - destruct (proj2 (FnImageBuild_auth_check docker.ParseRepositoryTag quietClient
                       (set_Auth userAuth (optionsFor "python"))) eq_refl)
      as (rest & Hcalls & _).
    exists rest. exact Hcalls.
Defined.

(** The build call of a build of [python] with nothing else set. *)
Lemma FnImageBuild_options_filled_witness :
  let w := snd (run_build (FnImageBuild docker.ParseRepositoryTag quietClient)
                  (optionsFor "python")) in
  In (docker.CallBuildImage (buildImageOptions (w_opts w))) (callsOf (w_events w))
  /\ docker.BuildImageOptions.Dockerfile (buildImageOptions (w_opts w)) <> "".
Proof.
  cbv zeta. split; [left; reflexivity|].
  exact (proj1 (proj2 (FnImageBuild_options_filled docker.ParseRepositoryTag quietClient
                         (optionsFor "python")) _ (or_introl eq_refl))).
Defined.

(** A build whose output is [built]. *)
Lemma FnImageBuild_stdout_witness :
  let r := run_build (FnImageBuild docker.ParseRepositoryTag
                        (buildingClient "built" None None)) (optionsFor "python") in
  snd (fst (fst r)) = Some "built" /\ snd (fst r) = None.
Proof.
  cbv zeta. split; [reflexivity|].
  exact (proj1 (proj1 (FnImageBuild_stdout docker.ParseRepositoryTag
                         (buildingClient "built" None None) (optionsFor "python"))
                  "built" eq_refl)).
Defined.

(** A build with credentials that the registry accepts with a token. *)
Lemma FnImageBuild_calls_auth_witness :
  let client := authClient ({| docker.AuthStatus.Status := "Login Succeeded";
                               docker.AuthStatus.IdentityToken := "t0k3n" |}, None) in
  let opts := set_Auth userAuth (optionsFor "python") in
  let w := snd (run_build (FnImageBuild docker.ParseRepositoryTag client) opts) in
  hasCredentials (Auth opts) = true
  /\ docker.AuthConfiguration.IdentityToken (Auth (w_opts w)) = "t0k3n"
  /\ docker.BuildImageOptions.Auth (buildImageOptions (w_opts w)) = Auth (w_opts w).
Proof.
  cbv zeta. split; [reflexivity|]. split.
  - exact (proj1 (proj2 (proj2 (FnImageBuild_calls_auth docker.ParseRepositoryTag
                    (authClient ({| docker.AuthStatus.Status := "Login Succeeded";
                                    docker.AuthStatus.IdentityToken := "t0k3n" |}, None))
                    (set_Auth userAuth (optionsFor "python")))) _ eq_refl eq_refl)).
  - exact (proj1 (FnImageBuild_calls_auth docker.ParseRepositoryTag
                    (authClient ({| docker.AuthStatus.Status := "Login Succeeded";
                                    docker.AuthStatus.IdentityToken := "t0k3n" |}, None))
                    (set_Auth userAuth (optionsFor "python")))
             _ (or_intror (or_introl eq_refl))).
Defined.

(** A name with a digest, parsed by the library's parser. *)
Lemma parseDockerImage_empty_tag_witness :
  snd (parseDockerImage docker.ParseRepositoryTag "gofn/python@sha256:ab12") = ""
  /\ fst (parseDockerImage docker.ParseRepositoryTag "gofn/python@sha256:ab12")
     = "gofn/python@sha256:ab12".
Proof.
  split; [reflexivity|].
  exact (proj2 (parseDockerImage_empty_tag docker.ParseRepositoryTag
                  "gofn/python@sha256:ab12" eq_refl)).
Defined.

(** The empty target name. *)
Lemma GetImageName_nonempty_witness :
  DoNotUsePrefixImageName (optionsFor "") = false /\ GetImageName (optionsFor "") <> "".
Proof.
  split; [reflexivity|]. exact (GetImageName_nonempty (optionsFor "") eq_refl).
Defined.

(** The two plain elements of [library/python]. *)
Lemma plain_library_python : Forall path.plainElem ["library"; "python"].
Proof.
  constructor; [apply plainElem_library|].
  constructor; [apply plainElem_python | constructor].
Qed.

(** A gofn container among others is listed. *)
Lemma FnListContainers_lists_resolved_witness :
  let c := container "a1" "gofn/library/python" in
  let host := [container "b2" "nginx"; c] in
  docker.APIContainers.Image c = GetImageName (optionsFor "library/python")
  /\ In c (fst (fst (run (FnListContainers (listingClient host))))).
Proof.
  cbv zeta. split; [reflexivity|].
  apply (FnListContainers_lists_resolved
           (listingClient [container "b2" "nginx"; container "a1" "gofn/library/python"])
           [container "b2" "nginx"; container "a1" "gofn/library/python"]
           (optionsFor "library/python") ["library"; "python"]
           (container "a1" "gofn/library/python")).
  - reflexivity.
  - reflexivity.
  - discriminate.
  - apply plain_library_python.
  - reflexivity.
  - right. left. reflexivity.
  - reflexivity.
Defined.

(** An [nginx] container of an image built without the prefix. *)
Lemma FnListContainers_misses_unprefixed_witness :
  let c := container "b2" "nginx" in
  docker.APIContainers.Image c = GetImageName (unprefixedOptionsFor "nginx")
  /\ ~ In c (fst (fst (run (FnListContainers (listingClient [c]))))).
Proof.
  cbv zeta. split; [reflexivity|].
  apply (FnListContainers_misses_unprefixed
           (listingClient [container "b2" "nginx"]) (unprefixedOptionsFor "nginx")
           (container "b2" "nginx")); reflexivity.
Defined.

(** Looking [library/python] up by either name. *)
Lemma FnFindContainer_bare_or_resolved_witness :
  let client := listingClient [container "a1" "gofn/library/python"] in
  strings.HasPrefix (ImageName (optionsFor "library/python")) "gofn" = false
  /\ run (FnFindContainer client "library/python")
     = run (FnFindContainer client "gofn/library/python").
Proof.
  cbv zeta. split; [reflexivity|].
  apply (FnFindContainer_bare_or_resolved
           (listingClient [container "a1" "gofn/library/python"])
           (optionsFor "library/python") ["library"; "python"]).
  - reflexivity.
  - discriminate.
  - apply plain_library_python.
  - reflexivity.
  - reflexivity.
Defined.

(** Finding [python] behind an [nginx] container. *)
Lemma FnFindContainer_found_witness :
  let host := [container "b2" "nginx"; container "a1" "gofn/python"] in
  fst (run (FnFindContainer (listingClient host) "python"))
  = (container "a1" "gofn/python", None)
  /\ strings.HasPrefix (docker.APIContainers.Image (container "a1" "gofn/python")) "gofn"
     = true.
Proof.
  cbv zeta. split; [reflexivity|].
  exact (proj1 (proj2 (FnFindContainer_found
                         (listingClient [container "b2" "nginx";
                                         container "a1" "gofn/python"])
                         "python" _ (container "a1" "gofn/python") eq_refl eq_refl))).
Defined.

(** Looking [python] up on an engine that only runs [nginx]. *)
Lemma FnFindContainer_not_found_witness :
  fst (run (FnFindContainer (listingClient [container "b2" "nginx"]) "python"))
  = (docker.APIContainers.zero, Some ErrContainerNotFound).
Proof.
  apply (proj2 (FnFindContainer_not_found (listingClient [container "b2" "nginx"])
                  "python" [container "b2" "nginx"] eq_refl)).
  intros w [<-|[]]. discriminate.
Defined.

(** The container found for [python] is listed. *)
Lemma FnFindContainer_found_is_listed_witness :
  let host := [container "b2" "nginx"; container "a1" "gofn/python"] in
  strings.HasPrefix "python" "gofn" = false
  /\ In (container "a1" "gofn/python")
        (fst (fst (run (FnListContainers (listingClient host))))).
Proof.
  cbv zeta. split; [reflexivity|].
  exact (FnFindContainer_found_is_listed
           (listingClient [container "b2" "nginx"; container "a1" "gofn/python"])
           "python" _ (container "a1" "gofn/python")
           eq_refl (or_intror eq_refl) eq_refl).
Defined.

(** An engine that cannot be reached. *)
Lemma listing_failure_witness :
  run (FnListContainers (deafClient (EngineError "connection refused")))
  = (([], Some (EngineError "connection refused")), [docker.CallListContainers listAll]).
Proof.
  exact (proj1 (listing_failure (deafClient (EngineError "connection refused"))
                  [] (EngineError "connection refused") "python" eq_refl)).
Defined.

(** Finding the second container by its ID. *)
Lemma FnFindContainerByID_found_witness :
  let host := [container "a1" "gofn/python"; container "b2" "nginx"] in
  fst (run (FnFindContainerByID (listingClient host) "b2"))
  = (container "b2" "nginx", None).
Proof.
  cbv zeta.
  apply (proj2 (FnFindContainerByID_found
                  (listingClient [container "a1" "gofn/python"; container "b2" "nginx"])
                  "b2" _ (container "b2" "nginx") eq_refl)).
  exists [container "a1" "gofn/python"], []. split; [reflexivity|].
  split; [reflexivity|]. intros w [<-|[]]. discriminate.
Defined.

(** Looking for an ID that no container has. *)
Lemma FnFindContainerByID_not_found_witness :
  let host := [container "a1" "gofn/python"; container "b2" "nginx"] in
  fst (run (FnFindContainerByID (listingClient host) "zz"))
  = (docker.APIContainers.zero, Some ErrContainerNotFound).
Proof.
  cbv zeta.
  apply (proj2 (proj1 (FnFindContainerByID_not_found
                  (listingClient [container "a1" "gofn/python"; container "b2" "nginx"])
                  "zz" _ eq_refl))).
  intros w [<-|[<-|[]]]; discriminate.
Defined.

(** Listing what was listed. *)
Lemma FnListContainers_idempotent_witness :
  let host := [container "a1" "gofn/python"; container "b2" "nginx";
               container "c3" "gofn/go"] in
  let kept := [container "a1" "gofn/python"; container "c3" "gofn/go"] in
  fst (fst (run (FnListContainers (listingClient host)))) = kept
  /\ fst (run (FnListContainers (listingClient kept)))
     = fst (run (FnListContainers (listingClient host))).
Proof.
  cbv zeta. split; [reflexivity|].
  exact (FnListContainers_idempotent
           (listingClient [container "a1" "gofn/python"; container "b2" "nginx";
                           container "c3" "gofn/go"])
           (listingClient [container "a1" "gofn/python"; container "c3" "gofn/go"])
           _ eq_refl eq_refl).
Defined.

(** An engine without images. *)
Lemma FnFindImage_first_witness :
  fst (xrun (FnFindImage (imagesClient ([], None) (None, None)) "gofn/python"))
  = (dockerx.APIImages.zero, Some ErrImageNotFound).
Proof.
  exact (proj1 (proj2 (proj2 (FnFindImage_first (imagesClient ([], None) (None, None))
                                "gofn/python"))) eq_refl).
Defined.

(** Creation without and with a UUID. *)
Lemma FnContainer_create_witness :
  let client := imagesClient ([], None)
                  (Some {| dockerx.Container.ID := "4f2a";
                           dockerx.Container.Name := "gofn-0b5e" |}, None) in
  let opts := {| Cmd := ["echo"]; Volumes := []; Image := "gofn/python";
                 Env := []; Runtime := "" |} in
  xrun (FnContainer client ("", Some (EngineError "rand: EOF")) opts)
  = ((None, Some (EngineError "rand: EOF")), [])
  /\ exists o,
       snd (xrun (FnContainer client ("0b5e", None) opts)) = [dockerx.CallCreateContainer o]
       /\ dockerx.CreateContainerOptions.Name o = "gofn-0b5e".
Proof.
  cbv zeta. split.
  - exact (proj1 (FnContainer_create _ "" _ _) _ eq_refl).
  - destruct (proj2 (FnContainer_create
                       (imagesClient ([], None)
                          (Some {| dockerx.Container.ID := "4f2a";
                                   dockerx.Container.Name := "gofn-0b5e" |}, None))
                       "0b5e" None
                       {| Cmd := ["echo"]; Volumes := []; Image := "gofn/python";
                          Env := []; Runtime := "" |}) eq_refl)
      as (o & Hrun & Hname & _).
    exists o. split; [exact (f_equal snd Hrun) | exact Hname].
Defined.

(** A wait call that fails while reporting code 137. *)
Lemma FnRun_wait_error_witness :
  fst (run (FnRun (runningClient None None 137 (Some (EngineError "EOF"))
                     "out" "err" None) "4f2a" "in"))
  = Some (Some "out", Some "err", Some (EngineError "EOF")).
Proof.
  exact (f_equal fst
           (FnRun_wait_error
              (runningClient None None 137 (Some (EngineError "EOF")) "out" "err" None)
              "4f2a" "in" 137 (EngineError "EOF") "out" "err" None
              eq_refl eq_refl eq_refl eq_refl)).
Defined.


(** A provider with a public key path set, the variable being set too;
    then without the variable. *)
Lemma GetSSHKeyPath_environment_first_witness :
  let env := digitalocean.onlyEnv "GOFN_SSH_PUBLICKEY_PATH" "/env/id_rsa.pub" in
  let do := digitalocean.set_sshPublicKeyPath "/set/id_rsa.pub" digitalocean.blank in
  env "GOFN_SSH_PUBLICKEY_PATH" <> ""
  /\ runState (digitalocean.GetSSHPublicKeyPath "/keys" "id_rsa.pub" path.Join env) do
     = ("/env/id_rsa.pub", do).
Proof.
  cbv zeta. split; [discriminate|].
  apply (proj1 (GetSSHKeyPath_environment_first "/keys" "id_rsa.pub" "id_rsa" path.Join
                  (digitalocean.onlyEnv "GOFN_SSH_PUBLICKEY_PATH" "/env/id_rsa.pub")
                  (digitalocean.set_sshPublicKeyPath "/set/id_rsa.pub"
                     digitalocean.blank))).
  discriminate.
Defined.

(** Setting the private key path of a blank provider, then reading it. *)
Lemma SetSSHKeyPath_then_get_witness :
  fst (runState (digitalocean.SetSSHPrivateKeyPath "/set/id_rsa";;
                 digitalocean.GetSSHPrivateKeyPath "/keys" "id_rsa" path.Join
                   digitalocean.noEnv) digitalocean.blank)
  = "/set/id_rsa".
Proof.
  exact (f_equal fst
           (proj2 (SetSSHKeyPath_then_get "/keys" "id_rsa.pub" "id_rsa" path.Join
                     digitalocean.noEnv digitalocean.blank "/set/id_rsa"
                     ltac:(discriminate)) eq_refl)).
Defined.

(** The default public key path of a blank provider. *)
Lemma GetSSHKeyPath_default_witness :
  runState (digitalocean.GetSSHPublicKeyPath "/keys" "id_rsa.pub" path.Join
              digitalocean.noEnv) digitalocean.blank
  = ("/keys/id_rsa.pub",
     digitalocean.set_sshPublicKeyPath "/keys/id_rsa.pub" digitalocean.blank).
Proof.
  exact (proj2 (proj1 (GetSSHKeyPath_default "/keys" "id_rsa.pub" "id_rsa" path.Join
                         digitalocean.noEnv digitalocean.blank) eq_refl) eq_refl).
Defined.

(** A provider with a region set and no size. *)
Lemma provider_settings_never_empty_witness :
  let do := {| digitalocean.Client := @None unit; digitalocean.Host := @None unit;
               digitalocean.Region := "ams3"; digitalocean.Size := "";
               digitalocean.ImageSlug := ""; digitalocean.KeyID := 0%Z;
               digitalocean.Ctx := @None unit;
               digitalocean.sshPublicKeyPath := "";
               digitalocean.sshPrivateKeyPath := "" |} in
  digitalocean.GetRegion do = "ams3" /\ digitalocean.GetSize do = "1gb".
Proof.
  intros do. split.
  - exact (proj1 (proj2 (provider_settings_never_empty do)) ltac:(discriminate)).
  - exact (proj1 (proj2 (proj2 (proj2 (proj2 (proj2
             (provider_settings_never_empty do)))))) eq_refl).
Defined.
